(** * Solar Flare Explorer: a shallow embedding of [app.py]

    The program is a Streamlit page: two date inputs, one button, one HTTP
    GET against NASA's DONKI flare endpoint, a reshaping of the decoded
    records into a pandas table ([process_data]) and three plotly views.

    The embedding follows the source function by function:
    - Python values (the decoded JSON and the cells of the table) are the
      inductive [pyval]; a [dict] decoded from JSON is a [gmap string pyval];
    - an exception is the [Raise] case of [result];
    - the page itself ([main]) runs in a small trace-and-exception monad
      [ui]: every Streamlit call and every outbound request appends one
      [event] to the trace, and an exception stops the script with the
      trace rendered so far. *)

From Stdlib Require Import ZArith Lia Ascii.
From Stdlib Require Import Floats.SpecFloat.
From stdpp Require Import gmap strings list fin_maps pretty.

#[local] Open Scope Z_scope.
#[local] Set Warnings "-register-all".

(** ** Python values *)

(** The values [response.json()] can produce, plus [PyTimestamp] for the
    cells [pd.to_datetime] writes back.  A [string] stands for a Python
    [str] whose code points are below 256, one [ascii] per code point.  A
    timestamp is the wall-clock reading in nanoseconds since
    1970-01-01T00:00 (DONKI times are UTC). *)
Inductive pyval : Type :=
| PyNone
| PyBool (b : bool)
| PyInt (z : Z)
| PyFloat (f : spec_float)
| PyStr (s : string)
| PyList (l : list pyval)
| PyDict (m : gmap string pyval)
| PyTimestamp (ns : Z).

Inductive pyerr : Type :=
| KeyError (key : string)
| IndexError
| TypeError
| AttributeError
| ValueError
| Exception (msg : string).

Inductive result (A : Type) : Type :=
| Ok (a : A)
| Raise (e : pyerr).
Arguments Ok {A} a.
Arguments Raise {A} e.

#[global] Instance result_ret : MRet result := @Ok.
#[global] Instance result_bind : MBind result := λ A B f m,
  match m with Ok a => f a | Raise e => Raise e end.

Definition raises {A} (r : result A) : Prop := ∃ e, r = Raise e.

(** *** The built-in operations the source uses *)

(** [v[key]] for a string key. *)
Definition py_getitem (v : pyval) (key : string) : result pyval :=
  match v with
  | PyDict m =>
      match m !! key with
      | Some x => Ok x
      | None => Raise (KeyError key)
      end
  | _ => Raise TypeError
  end.

(** [v.get(key, default)]. *)
Definition py_get (v : pyval) (key : string) (dflt : pyval) : result pyval :=
  match v with
  | PyDict m => Ok (default dflt (m !! key))
  | _ => Raise AttributeError
  end.

Definition float_is_zero (f : spec_float) : bool :=
  match f with S754_zero _ => true | _ => false end.

(** Truth value of an object: [None], [False], zero, and empty strings
    and containers are false. *)
Definition py_truthy (v : pyval) : bool :=
  match v with
  | PyNone => false
  | PyBool b => b
  | PyInt z => negb (z =? 0)
  | PyFloat f => negb (float_is_zero f)
  | PyStr s => negb (String.eqb s "")
  | PyList l => match l with [] => false | _ => true end
  | PyDict m => negb (bool_decide (size m = 0%nat))
  | PyTimestamp _ => true
  end.

(** [a or b]. *)
Definition py_or (a b : pyval) : pyval :=
  if py_truthy a then a else b.

(** [len(v)]. *)
Definition py_len (v : pyval) : result Z :=
  match v with
  | PyStr s => Ok (Z.of_nat (String.length s))
  | PyList l => Ok (Z.of_nat (length l))
  | PyDict m => Ok (Z.of_nat (size m))
  | _ => Raise TypeError
  end.

Fixpoint chars (s : string) : list string :=
  match s with
  | EmptyString => []
  | String c s' => String c EmptyString :: chars s'
  end.

(** The elements [for x in v] visits.  A dict yields its keys (their
    order is the map's, not Python's insertion order). *)
Definition py_iter (v : pyval) : result (list pyval) :=
  match v with
  | PyList l => Ok l
  | PyStr s => Ok (PyStr <$> chars s)
  | PyDict m => Ok (PyStr <$> (map_to_list m).*1)
  | _ => Raise TypeError
  end.

(** [v[0]]: the first character of a string or element of a list. *)
Definition py_getitem0 (v : pyval) : result pyval :=
  match v with
  | PyStr (String c _) => Ok (PyStr (String c EmptyString))
  | PyStr EmptyString => Raise IndexError
  | PyList (x :: _) => Ok x
  | PyList [] => Raise IndexError
  | PyDict _ => Raise (KeyError "0")
  | _ => Raise TypeError
  end.

(** [ord(v)]: the code point of a one-character string.  The strings of
    the model hold code points below 256, so nothing is said here about a
    first character beyond them. *)
Definition py_ord (v : pyval) : result Z :=
  match v with
  | PyStr (String c EmptyString) => Ok (Z.of_N (N_of_ascii c))
  | _ => Raise TypeError
  end.

(** ** The table *)

(** A [pd.DataFrame], column-major: the number of rows and the columns in
    order, each a name with its cells. *)
Record DataFrame : Type := mkDataFrame {
  nrows : nat;
  columns : list (string * list pyval)
}.

(** A Python dict built by a literal: the keys in insertion order. *)
Abbreviation record := (list (string * pyval)).

Fixpoint assoc {A} (key : string) (r : list (string * A)) : option A :=
  match r with
  | [] => None
  | (k, v) :: r' => if String.eqb k key then Some v else assoc key r'
  end.

(** The keys of the records in order of first appearance. *)
Fixpoint first_seen (seen : list string) (keys : list string) : list string :=
  match keys with
  | [] => []
  | k :: keys' =>
      if bool_decide (k ∈ seen) then first_seen seen keys'
      else k :: first_seen (k :: seen) keys'
  end.

(** [pd.DataFrame(records)] for a list of dicts: one row per dict, one
    column per key, a missing cell is NA.  An empty list gives a frame
    with no rows and no columns.  The cells are kept as the dicts hold
    them: the dtype pandas infers for a column (an integer beside a null
    is stored as a float and the null as NaN) is not modelled.  The model
    is exact on the column names and their order, on the number and order
    of the rows, on which cells are NA, on the cells that are strings and
    on a column of integers without null. *)
Definition pd_DataFrame (records : list record) : DataFrame :=
  let names := first_seen [] (concat ((λ r, r.*1) <$> records)) in
  {| nrows := length records;
     columns := (λ k, (k, (λ r, default PyNone (assoc k r)) <$> records)) <$> names |}.

(** [len(df)]. *)
Definition df_len (df : DataFrame) : Z := Z.of_nat (nrows df).

(** [df[name]]. *)
Definition df_getitem (df : DataFrame) (name : string) : result (list pyval) :=
  match assoc name (columns df) with
  | Some cells => Ok cells
  | None => Raise (KeyError name)
  end.

(** [df[name] = cells]: replaces the column when it exists, appends it
    otherwise; the cells must be as many as the rows. *)
Fixpoint set_col (name : string) (cells : list pyval)
    (cols : list (string * list pyval)) : list (string * list pyval) :=
  match cols with
  | [] => [(name, cells)]
  | (k, c) :: cols' =>
      if String.eqb k name then (k, cells) :: cols'
      else (k, c) :: set_col name cells cols'
  end.

Definition df_setitem (df : DataFrame) (name : string) (cells : list pyval)
    : result DataFrame :=
  if bool_decide (length cells = nrows df)
  then Ok {| nrows := nrows df; columns := set_col name cells (columns df) |}
  else Raise ValueError.

(** The [i]-th row of the table, as the dict of its cells. *)
Definition df_row (df : DataFrame) (i : nat) : record :=
  (λ kc, (kc.1, default PyNone (kc.2 !! i))) <$> columns df.

(** ** [process_data] *)

(** [len(flare.get(key, []) or [])]. *)
Definition count_of (flare : pyval) (key : string) : result Z :=
  v ← py_get flare key (PyList []);
  py_len (py_or v (PyList [])).

(** The dict appended for one [flare]; the fields are evaluated in the
    order of the literal, so the first missing key is the one reported. *)
Definition process_flare (flare : pyval) : result record :=
  flrID ← py_getitem flare "flrID";
  beginTime ← py_getitem flare "beginTime";
  peakTime ← py_getitem flare "peakTime";
  endTime ← py_getitem flare "endTime";
  classType ← py_getitem flare "classType";
  sourceLocation ← py_getitem flare "sourceLocation";
  activeRegionNum ← py_getitem flare "activeRegionNum";
  linkedEvents ← count_of flare "linkedEvents";
  instruments ← count_of flare "instruments";
  mret [("flrID", flrID);
        ("beginTime", beginTime);
        ("peakTime", peakTime);
        ("endTime", endTime);
        ("classType", classType);
        ("sourceLocation", sourceLocation);
        ("activeRegionNum", activeRegionNum);
        ("linkedEvents", PyInt linkedEvents);
        ("instruments", PyInt instruments)].

(** The loop [for flare in data: processed_data.append(...)]. *)
Fixpoint process_loop (flares : list pyval) (processed_data : list record)
    : result (list record) :=
  match flares with
  | [] => Ok processed_data
  | flare :: rest =>
      row ← process_flare flare;
      process_loop rest (processed_data ++ [row])
  end.

Definition process_data (data : pyval) : result DataFrame :=
  flares ← py_iter data;
  processed_data ← process_loop flares [];
  mret (pd_DataFrame processed_data).

(** ** Dates and the request *)

(** A [datetime.date]; years run from 1 to 9999. *)
Record date : Type := mkDate { year : Z; month : Z; day : Z }.

(** [a <= b] and [a > b] on dates: the order of (year, month, day). *)
Definition date_le (a b : date) : bool :=
  if year a =? year b then
    if month a =? month b then day a <=? day b else month a <? month b
  else year a <? year b.

Definition date_gt (a b : date) : bool :=
  if year a =? year b then
    if month a =? month b then day b <? day a else month b <? month a
  else year b <? year a.

Definition digit (n : Z) : ascii := ascii_of_N (48 + Z.to_N (n mod 10)).

Definition digits2 (n : Z) : string :=
  String (digit (n / 10)) (String (digit n) EmptyString).

Definition digits4 (n : Z) : string :=
  String (digit (n / 1000)) (String (digit (n / 100)) (digits2 n)).

(** [d.strftime('%Y-%m-%d')], for the years 1000 to 9999: there the year
    takes four digits on every platform (below 1000 glibc prints it
    without padding). *)
Definition strftime_Ymd (d : date) : string :=
  digits4 (year d) +:+ "-" +:+ digits2 (month d) +:+ "-" +:+ digits2 (day d).

(** What [requests.get] hands back: the status and what [.json()] gives
    (decoding the body may itself raise). *)
Record response : Type := mkResponse {
  status_code : Z;
  json : result pyval
}.

(** ** The page *)

(** The data each plotly figure is built from. *)
Inductive figure : Type :=
| Pie (class_counts : list (pyval * Z))
| Line (daily_counts : list (Z * Z))
| Scatter (x y hover : list pyval)
    (tickvals : list Z) (ticktext : list string) (yaxis_range : Z * Z).

(** What a run of the script does, in order. *)
Inductive event : Type :=
| SetPageConfig (page_title : string)
| PageStyle
| Markdown (body : string)
| Columns (n : Z)
| DateInput (label : string)
| Button (label : string)
| Spinner (text : string)
| HttpGet (url : string)
| Tabs (labels : list string)
| InTab (i : nat)
| Subheader (body : string)
| PlotlyChart (fig : figure)
| StError (body : string).

(** A script step: it extends the trace and returns or raises.  An
    exception ends the run; the trace up to it stays on the page. *)
Definition ui (A : Type) : Type := list event → list event * result A.

#[global] Instance ui_ret : MRet ui := λ A a tr, (tr, Ok a).
#[global] Instance ui_bind : MBind ui := λ A B f m tr,
  match m tr with
  | (tr', Ok a) => f a tr'
  | (tr', Raise e) => (tr', Raise e)
  end.

Definition emit (e : event) : ui unit := λ tr, (tr ++ [e], Ok tt).

Definition lift {A} (r : result A) : ui A := λ tr, (tr, r).

(** The trace and outcome of a whole run. *)
Definition run {A} (m : ui A) : list event * result A := m [].

(** Nanoseconds in a day, and the calendar day a timestamp falls on. *)
Definition NS_PER_DAY : Z := 86400 * 1000000000.

Definition day_of (ns : Z) : Z := ns / NS_PER_DAY.

(** [pd.isna] on a cell. *)
Definition isna (v : pyval) : bool :=
  match v with
  | PyNone => true
  | PyFloat S754_nan => true
  | _ => false
  end.

(** The cells of a [DatetimeIndex]. *)
Definition as_timestamp (v : pyval) : result Z :=
  match v with
  | PyTimestamp ns => Ok ns
  | _ => Raise TypeError
  end.

(** [series.resample('D').count().reset_index()] for a series [values]
    indexed by the timestamps [index]: one row per calendar day from the
    day of the earliest timestamp to the day of the latest, labelled by the
    day's midnight, holding the number of non-NA values of that day.  Every
    entry of the index is a timestamp: a row whose begin time parsed to NaT
    (a null [beginTime]), which pandas leaves out of every bucket, is
    outside the model. *)
Definition count_on (d : Z) (index : list Z) (values : list pyval) : Z :=
  Z.of_nat (length (filter (λ tv, day_of tv.1 = d ∧ isna tv.2 = false)
                           (zip index values))).

Definition resample_D_count (index : list Z) (values : list pyval)
    : list (Z * Z) :=
  match index with
  | [] => []
  | t :: ts =>
      let first := foldr Z.min (day_of t) (day_of <$> ts) in
      let last := foldr Z.max (day_of t) (day_of <$> ts) in
      (λ d, (d * NS_PER_DAY, count_on d index values))
        <$> seqZ first (last - first + 1)
  end.

(** [ord(x[0]) - 65]. *)
Definition intensity (x : pyval) : result Z :=
  c ← py_getitem0 x;
  o ← py_ord c;
  mret (o - 65).

(** [list(range(start, stop, step))] for a positive step. *)
Definition py_range (start stop step : Z) : list Z :=
  (λ i, start + i * step) <$> seqZ 0 ((stop - start + step - 1) / step).

(** The f-string of the request. *)
Definition flare_url (start_date_str end_date_str : string) : string :=
  "https://kauai.ccmc.gsfc.nasa.gov/DONKI/WS/get/FLR?startDate="
  +:+ start_date_str +:+ "&endDate=" +:+ end_date_str.

Section Page.

(** The libraries' side, taken as given: the network behind
    [requests.get], pandas' [Series.value_counts] and pandas' timestamp
    parser [pd.to_datetime]. *)
Variable requests_get : string → result response.
Variable value_counts : list pyval → result (list (pyval * Z)).
Variable to_datetime : list pyval → result (list Z).

Definition get_solar_flare_data (start_date end_date : date) : ui pyval :=
  let start_date_str := strftime_Ymd start_date in
  let end_date_str := strftime_Ymd end_date in
  let url := flare_url start_date_str end_date_str in
  _ ← emit (HttpGet url);
  response ← lift (requests_get url);
  if status_code response =? 200 then
    lift (json response)
  else
    lift (Raise (Exception ("API call failed with status code "
                            +:+ pretty (status_code response)))).

(** The three tabs, in the order the script fills them.  The table is
    threaded through: the second tab rewrites [beginTime], the third
    adds [intensity]. *)
Definition pie_tab (df : DataFrame) : ui DataFrame :=
  _ ← emit (InTab 0);
  _ ← emit (Markdown "This section provides an overview of the solar flare data and the distribution of their class types.");
  _ ← emit (Subheader "Distribution of Flare Class Types");
  classType ← lift (df_getitem df "classType");
  class_counts ← lift (value_counts classType);
  _ ← emit (PlotlyChart (Pie class_counts));
  mret df.

Definition timeline_tab (df : DataFrame) : ui DataFrame :=
  _ ← emit (InTab 1);
  _ ← emit (Subheader "Number of Flares Over Time");
  beginTime ← lift (df_getitem df "beginTime");
  parsed ← lift (to_datetime beginTime);
  df ← lift (df_setitem df "beginTime" (PyTimestamp <$> parsed));
  index ← lift (cells ← df_getitem df "beginTime"; mapM as_timestamp cells);
  flrID ← lift (df_getitem df "flrID");
  _ ← emit (PlotlyChart (Line (resample_D_count index flrID)));
  mret df.

Definition scatter_tab (df : DataFrame) : ui DataFrame :=
  _ ← emit (InTab 2);
  _ ← emit (Subheader "Solar Flare Intensity Over Time");
  classType ← lift (df_getitem df "classType");
  values ← lift (mapM intensity classType);
  df ← lift (df_setitem df "intensity" (PyInt <$> values));
  x ← lift (df_getitem df "beginTime");
  y ← lift (df_getitem df "intensity");
  hover ← lift (df_getitem df "classType");
  _ ← emit (PlotlyChart (Scatter x y hover (py_range 0 24 5)
                                 ["A"; "B"; "C"; "M"; "X"] (-1, 24)));
  mret df.

(** [main], for the values the two date widgets and the button return
    in this run of the script. *)
Definition main (start_date end_date : date) (clicked : bool) : ui unit :=
  _ ← emit (SetPageConfig "Solar Flare Explorer");
  _ ← emit PageStyle;
  _ ← emit (Markdown "# ☀️ Solar Flare Explorer");
  _ ← emit (Columns 2);
  _ ← emit (DateInput "Start Date");
  _ ← emit (DateInput "End Date");
  _ ← (if date_le start_date end_date then
         _ ← emit (Button "Analyze Solar Flares");
         if clicked then
           _ ← emit (Spinner "Fetching and processing data...");
           data ← get_solar_flare_data start_date end_date;
           df ← lift (process_data data);
           _ ← emit (Markdown ("## Total Flares: " +:+ pretty (df_len df)));
           _ ← emit (Tabs ["Pie Chart"; "Flare Timeline"; "Advanced Analysis"]);
           df ← pie_tab df;
           df ← timeline_tab df;
           _ ← scatter_tab df;
           mret tt
         else mret tt
       else
         emit (StError "Error: End date must be after start date."));
  _ ← emit (Markdown "---");
  emit (Markdown " | Data source: NASA DONKI API - Real-time data from the Space Weather Database Of Notifications, Knowledge, Information (DONKI) by Auth. NASA data Sources - HRS").

End Page.

(** Days from 1970-01-01 to a date of the proleptic Gregorian calendar
    ([date.toordinal()] shifted to the epoch). *)
Definition days_from_civil (d : date) : Z :=
  let y := if month d <=? 2 then year d - 1 else year d in
  let era := y / 400 in
  let yoe := y - era * 400 in
  let mp := (month d + 9) mod 12 in
  let doy := (153 * mp + 2) / 5 + day d - 1 in
  let doe := yoe * 365 + yoe / 4 - yoe / 100 + doy in
  era * 146097 + doe - 719468.

(** ** A sample upstream

    A concrete instance of the libraries' side, used to run the page on
    explicit inputs: timestamps in DONKI's format [YYYY-MM-DDTHH:MMZ] and
    a fixed reply to every request. *)

Module Sample.

Definition digit_val (c : ascii) : option Z :=
  let n := Z.of_N (N_of_ascii c) in
  if (48 <=? n) && (n <=? 57) then Some (n - 48) else None.

Fixpoint number (acc : Z) (cs : list ascii) : option Z :=
  match cs with
  | [] => Some acc
  | c :: cs' => v ← digit_val c; number (acc * 10 + v) cs'
  end.

(** [YYYY-MM-DDTHH:MMZ] to nanoseconds since the epoch. *)
Definition parse_donki (s : string) : option Z :=
  match String.list_ascii_of_string s with
  | [y1; y2; y3; y4; "-"; m1; m2; "-"; d1; d2; "T"; h1; h2; ":"; n1; n2; "Z"]%char =>
      y ← number 0 [y1; y2; y3; y4];
      m ← number 0 [m1; m2];
      d ← number 0 [d1; d2];
      h ← number 0 [h1; h2];
      n ← number 0 [n1; n2];
      Some ((days_from_civil (mkDate y m d) * 1440 + h * 60 + n) * 60000000000)
  | _ => None
  end.

Definition to_datetime (cells : list pyval) : result (list Z) :=
  mapM (λ v, match v with
             | PyStr s => match parse_donki s with
                          | Some ns => Ok ns
                          | None => Raise ValueError
                          end
             | _ => Raise TypeError
             end) cells.

(** One row per distinct string, in order of first appearance. *)
Fixpoint bump (s : string) (counts : list (pyval * Z)) : list (pyval * Z) :=
  match counts with
  | [] => [(PyStr s, 1)]
  | (PyStr k, n) :: rest =>
      if String.eqb k s then (PyStr k, n + 1) :: rest
      else (PyStr k, n) :: bump s rest
  | c :: rest => c :: bump s rest
  end.

Definition value_counts (cells : list pyval) : result (list (pyval * Z)) :=
  foldl (λ acc v, counts ← acc;
                  match v with
                  | PyStr s => Ok (bump s counts)
                  | _ => Raise TypeError
                  end) (Ok []) cells.

(** An upstream that answers every request with [status] and [body]. *)
Definition upstream (status : Z) (body : pyval) (url : string) : result response :=
  Ok {| status_code := status; json := Ok body |}.

Definition flare (flrID beginTime classType : string) : pyval :=
  PyDict (list_to_map
    [("flrID", PyStr flrID); ("beginTime", PyStr beginTime);
     ("peakTime", PyStr beginTime); ("endTime", PyStr beginTime);
     ("classType", PyStr classType); ("sourceLocation", PyNone);
     ("activeRegionNum", PyNone); ("linkedEvents", PyNone);
     ("instruments", PyList [PyDict ∅])]).

(** The first three days of 2024, and timestamps on the second and the
    fourth. *)
Definition jan1 : date := mkDate 2024 1 1.
Definition jan3 : date := mkDate 2024 1 3.
Definition jan2_1030 : Z := (19724 * 1440 + 630) * 60000000000.
Definition jan4_0100 : Z := (19726 * 1440 + 60) * 60000000000.

(** A record with the five fields the specification calls required and
    nothing else. *)
Definition bare_flare : gmap string pyval :=
  list_to_map
    [("flrID", PyStr "2024-01-02T10:30:00-FLR-001");
     ("beginTime", PyStr "2024-01-02T10:30Z");
     ("peakTime", PyStr "2024-01-02T10:41Z");
     ("endTime", PyStr "2024-01-02T10:50Z");
     ("classType", PyStr "M2.3")].

(** A record with the seven keys read by subscript and no list field. *)
Definition plain_flare : gmap string pyval :=
  <["sourceLocation" := PyStr "N12W34"]>
    (<["activeRegionNum" := PyInt 13536]> bare_flare).

(** A flare whose identifier is null. *)
Definition anonymous_flare (beginTime classType : string) : pyval :=
  PyDict (list_to_map
    [("flrID", PyNone); ("beginTime", PyStr beginTime);
     ("peakTime", PyStr beginTime); ("endTime", PyStr beginTime);
     ("classType", PyStr classType); ("sourceLocation", PyNone);
     ("activeRegionNum", PyNone); ("linkedEvents", PyNone);
     ("instruments", PyNone)]).

(** Two flares on consecutive days, and an upstream whose transport
    fails. *)
Definition two_flares : list pyval :=
  [flare "a" "2024-01-01T00:00Z" "M2.3"; flare "b" "2024-01-02T00:00Z" "X1.0"].

Definition unreachable (url : string) : result response :=
  Raise (Exception "connection refused").

End Sample.

(** ** Vocabulary of the statements *)

(** The keys [process_data] reads with [flare[key]]. *)
Definition required_keys : list string :=
  ["flrID"; "beginTime"; "peakTime"; "endTime"; "classType";
   "sourceLocation"; "activeRegionNum"].

(** The two keys it reads with [flare.get(key, [])]. *)
Definition list_keys : list string := ["linkedEvents"; "instruments"].

(** A list field as the data model has it: absent, null or a list. *)
Definition list_field (field : option pyval) : bool :=
  match field with
  | None | Some PyNone | Some (PyList _) => true
  | _ => false
  end.

Definition well_typed_lists (m : gmap string pyval) : bool :=
  forallb (λ key, list_field (m !! key)) list_keys.

Definition has_keys (keys : list string) (m : gmap string pyval) : bool :=
  forallb (λ key, bool_decide (is_Some (m !! key))) keys.

(** The row [process_data] builds from a dict that has the required
    keys. *)
Definition row_of (m : gmap string pyval) (linkedEvents instruments : Z) : record :=
  [("flrID", default PyNone (m !! "flrID"));
   ("beginTime", default PyNone (m !! "beginTime"));
   ("peakTime", default PyNone (m !! "peakTime"));
   ("endTime", default PyNone (m !! "endTime"));
   ("classType", default PyNone (m !! "classType"));
   ("sourceLocation", default PyNone (m !! "sourceLocation"));
   ("activeRegionNum", default PyNone (m !! "activeRegionNum"));
   ("linkedEvents", PyInt linkedEvents);
   ("instruments", PyInt instruments)].

(** The count the data model asks for: the length of the list, 0 for a
    null or absent field. *)
Definition list_length (field : option pyval) : Z :=
  match field with
  | Some (PyList l) => Z.of_nat (length l)
  | _ => 0
  end.

(** A record the transformation accepts by the data model: a JSON object
    with the keys read by subscript, whose two list fields are absent,
    null or lists. *)
Definition valid_record (flare : pyval) : bool :=
  match flare with
  | PyDict m => has_keys required_keys m && well_typed_lists m
  | _ => false
  end.

(** What a row of the table keeps of the record it comes from, whatever
    dtype pandas gives the columns: the nine columns in order; each
    subscripted field that is a string as it is; each subscripted field
    null exactly when the cell is NA; and the two counts. *)
Definition row_derived_from (row : record) (m : gmap string pyval) : Prop :=
  row.*1 = ["flrID"; "beginTime"; "peakTime"; "endTime"; "classType";
            "sourceLocation"; "activeRegionNum"; "linkedEvents"; "instruments"] ∧
  (∀ key s, key ∈ required_keys → m !! key = Some (PyStr s) →
            assoc key row = Some (PyStr s)) ∧
  (∀ key, key ∈ required_keys →
          ∃ cell, assoc key row = Some cell ∧
                  isna cell = isna (default PyNone (m !! key))) ∧
  assoc "linkedEvents" row = Some (PyInt (list_length (m !! "linkedEvents"))) ∧
  assoc "instruments" row = Some (PyInt (list_length (m !! "instruments"))).

(** The required fields as the specification lists them. *)
Definition spec_required_keys : list string :=
  ["flrID"; "classType"; "beginTime"; "peakTime"; "endTime"].

(** The claim about failures with the specification's list of required
    fields: the transformation of [records] fails exactly when one of
    them lacks one of those fields. *)
Definition fails_iff_spec_field_missing (records : list (gmap string pyval)) : Prop :=
  raises (process_data (PyList (PyDict <$> records))) ↔
  ∃ m key, m ∈ records ∧ key ∈ spec_required_keys ∧ m !! key = None.

(** What every run puts on the page before the range is checked, and
    the footer it ends with. *)
Definition page_header : list event :=
  [SetPageConfig "Solar Flare Explorer"; PageStyle;
   Markdown "# ☀️ Solar Flare Explorer"; Columns 2;
   DateInput "Start Date"; DateInput "End Date"].

Definition page_footer : list event :=
  [Markdown "---";
   Markdown " | Data source: NASA DONKI API - Real-time data from the Space Weather Database Of Notifications, Knowledge, Information (DONKI) by Auth. NASA data Sources - HRS"].

(** The request [get_solar_flare_data] sends for a range. *)
Definition request_url (start_date end_date : date) : string :=
  flare_url (strftime_Ymd start_date) (strftime_Ymd end_date).

(** The events only an analysis produces: the request and everything
    shown from the table. *)
Definition pipeline_event (e : event) : bool :=
  match e with
  | Spinner _ | HttpGet _ | Tabs _ | InTab _ | Subheader _ | PlotlyChart _ => true
  | Markdown body => String.prefix "## Total Flares: " body
  | _ => false
  end.

(** The sum of a column of counts. *)
Fixpoint total (counts : list Z) : Z :=
  match counts with
  | [] => 0
  | c :: counts' => c + total counts'
  end.

(** The label of a daily bucket: the day's midnight. *)
Definition day_label (d : Z) : Z := d * NS_PER_DAY.

(** The calendar days of a requested range, both ends included, and the
    specification's reading of the timeline: one bucket for each of
    them. *)
Definition requested_days (start_date end_date : date) : list Z :=
  seqZ (days_from_civil start_date)
       (days_from_civil end_date - days_from_civil start_date + 1).

Definition covers_requested_range (start_date end_date : date)
    (daily_counts : list (Z * Z)) : Prop :=
  daily_counts.*1 = day_label <$> requested_days start_date end_date.

(** The specification's reading of the timeline's counts: they add up to
    the number of rows. *)
Definition counts_sum_to_row_count (rows : list (Z * pyval)) : Prop :=
  total (resample_D_count rows.*1 rows.*2).*2 = Z.of_nat (length rows).

(** The column names of a table of processed rows. *)
Definition row_keys : list string :=
  ["flrID"; "beginTime"; "peakTime"; "endTime"; "classType";
   "sourceLocation"; "activeRegionNum"; "linkedEvents"; "instruments"].

(** *** Vocabulary of the further properties *)

(** What the fetch hands to the script, whatever the upstream does: the
    decoded body on status 200, otherwise an exception. *)
Definition fetch_outcome (requests_get : string → result response)
    (start_date end_date : date) : result pyval :=
  response ← requests_get (request_url start_date end_date);
  if status_code response =? 200 then json response
  else Raise (Exception ("API call failed with status code "
                         +:+ pretty (status_code response))).

(** The body of the [with st.spinner(...)] block after the fetch. *)
Definition analysis (value_counts : list pyval → result (list (pyval * Z)))
    (to_datetime : list pyval → result (list Z)) (data : pyval) : ui unit :=
  df ← lift (process_data data);
  _ ← emit (Markdown ("## Total Flares: " +:+ pretty (df_len df)));
  _ ← emit (Tabs ["Pie Chart"; "Flare Timeline"; "Advanced Analysis"]);
  df ← pie_tab value_counts df;
  df ← timeline_tab to_datetime df;
  _ ← scatter_tab df;
  mret tt.

(** What the page holds when the fetch is reached. *)
Definition page_at_fetch (start_date end_date : date) : list event :=
  page_header
  ++ [Button "Analyze Solar Flares";
      Spinner "Fetching and processing data...";
      HttpGet (request_url start_date end_date)].

(** A step that only appends to the trace, and only events with [P]. *)
Definition emits_only (P : event → Prop) {A} (m : ui A) : Prop :=
  ∀ tr, ∃ extra, (m tr).1 = tr ++ extra ∧ Forall P extra.

(** The events a filled tab or the summary line can be. *)
Definition analysis_event (e : event) : bool :=
  match e with
  | Tabs _ | InTab _ | Subheader _ | PlotlyChart _ => true
  | Markdown body =>
      String.prefix "## Total Flares: " body
      || String.eqb body "This section provides an overview of the solar flare data and the distribution of their class types."
  | _ => false
  end.

Definition is_request (e : event) : bool :=
  match e with HttpGet _ => true | _ => false end.

Definition is_chart (e : event) : bool :=
  match e with PlotlyChart _ => true | _ => false end.

(** How many events of a trace satisfy [p]. *)
Definition count_events (p : event → bool) (tr : list event) : nat :=
  length (List.filter p tr).

Definition is_range_error (e : event) : bool :=
  match e with StError _ => true | _ => false end.

(** [flare[key]] where it is known to succeed, NA otherwise. *)
Definition field (key : string) (flare : pyval) : pyval :=
  match flare with
  | PyDict m => default PyNone (m !! key)
  | _ => PyNone
  end.

(** The values [len] rejects although they are true: [True], non-zero
    numbers (and timestamps, which JSON never yields). *)
Definition unsized (v : pyval) : bool :=
  match v with
  | PyBool b => b
  | PyInt z => negb (z =? 0)
  | PyFloat f => negb (float_is_zero f)
  | PyTimestamp _ => true
  | _ => false
  end.

(** The empty string and the empty object: iterables without elements
    that are not arrays. *)
Definition empty_iterable (v : pyval) : bool :=
  match v with
  | PyStr s => String.eqb s ""
  | PyDict m => bool_decide (size m = 0%nat)
  | _ => false
  end.

(** A date whose year [strftime] prints in four digits on every
    platform. *)
Definition printable_date (d : date) : bool :=
  (1000 <=? year d) && (year d <? 10000) &&
  (1 <=? month d) && (month d <=? 12) &&
  (1 <=? day d) && (day d <=? 31).

(** * Properties *)

(** ** The result monad *)

Lemma bind_Ok_inv {A B} (r : result A) (f : A → result B) (b : B) :
  (r ≫= f) = Ok b → ∃ a, r = Ok a ∧ f a = Ok b.
Proof. destruct r as [a|e]; [eauto | discriminate]. Qed.

Lemma raises_Raise {A} (e : pyerr) : raises (@Raise A e).
Proof. by exists e. Qed.

Lemma not_raises_Ok {A} (a : A) : ¬ raises (Ok a).
Proof. intros [e He]. discriminate. Qed.

Lemma raises_or_ok {A} (r : result A) : raises r ∨ ∃ a, r = Ok a.
Proof. destruct r; [right | left]; eauto using raises_Raise. Qed.

(** ** [process_data] *)

Lemma count_of_list (m : gmap string pyval) key l :
  m !! key = Some (PyList l) →
  count_of (PyDict m) key = Ok (Z.of_nat (length l)).
Proof.
  intros H. unfold count_of. simpl. rewrite H. simpl.
  unfold py_or. by destruct l.
Qed.

Lemma count_of_null (m : gmap string pyval) key :
  m !! key = Some PyNone → count_of (PyDict m) key = Ok 0.
Proof. intros H. unfold count_of. simpl. by rewrite H. Qed.

Lemma count_of_absent (m : gmap string pyval) key :
  m !! key = None → count_of (PyDict m) key = Ok 0.
Proof. intros H. unfold count_of. simpl. by rewrite H. Qed.

Lemma count_of_nonneg flare key n : count_of flare key = Ok n → 0 ≤ n.
Proof.
  unfold count_of. intros H.
  apply bind_Ok_inv in H as (v & _ & H).
  destruct (py_or v (PyList [])); simpl in H; simplify_eq; lia.
Qed.

Lemma has_keys_spec keys (m : gmap string pyval) :
  has_keys keys m = true ↔ ∀ key, key ∈ keys → is_Some (m !! key).
Proof.
  unfold has_keys. rewrite forallb_forall. split.
  - intros H key Hkey. apply list_elem_of_In in Hkey.
    apply H in Hkey. by apply bool_decide_eq_true_1 in Hkey.
  - intros H key Hkey. apply list_elem_of_In in Hkey.
    by apply bool_decide_eq_true_2, H.
Qed.

Lemma has_keys_false keys (m : gmap string pyval) :
  has_keys keys m = false → ∃ key, key ∈ keys ∧ m !! key = None.
Proof.
  induction keys as [|k keys IH]; simpl; [discriminate |].
  destruct (m !! k) eqn:E.
  - rewrite bool_decide_eq_true_2 by eauto. simpl.
    intros (key & ? & ?)%IH. exists key. split; [by right | done].
  - intros _. exists k. split; [by left | done].
Qed.

Lemma well_typed_lists_spec (m : gmap string pyval) key :
  well_typed_lists m = true → key ∈ list_keys → list_field (m !! key) = true.
Proof.
  unfold well_typed_lists. rewrite forallb_forall.
  intros H Hkey. by apply H, list_elem_of_In.
Qed.

Lemma process_flare_Ok_inv flare row :
  process_flare flare = Ok row →
  ∃ m le ins, flare = PyDict m ∧
    (∀ key, key ∈ required_keys → is_Some (m !! key)) ∧
    count_of flare "linkedEvents" = Ok le ∧
    count_of flare "instruments" = Ok ins ∧
    row = row_of m le ins.
Proof.
  destruct flare as [| | | | | |m|]; try discriminate.
  unfold process_flare, py_getitem, row_of, required_keys. intros H.
  repeat match type of H with
         | context [m !! ?k] => destruct (m !! k) eqn:?; simpl in H; [|discriminate]
         end.
  destruct (count_of (PyDict m) "linkedEvents") as [le|] eqn:Hle; [|discriminate].
  destruct (count_of (PyDict m) "instruments") as [ins|] eqn:Hins; [|discriminate].
  simpl in H. injection H as <-.
  exists m, le, ins. split_and!; try done.
  - intros key Hkey.
    repeat (apply elem_of_cons in Hkey as [-> | Hkey]; [eauto |]).
    by apply elem_of_nil in Hkey.
  - by repeat match goal with E : m !! _ = Some _ |- _ => rewrite E; clear E end.
Qed.

Lemma process_flare_Ok (m : gmap string pyval) le ins :
  (∀ key, key ∈ required_keys → is_Some (m !! key)) →
  count_of (PyDict m) "linkedEvents" = Ok le →
  count_of (PyDict m) "instruments" = Ok ins →
  process_flare (PyDict m) = Ok (row_of m le ins).
Proof.
  intros Hreq Hle Hins.
  unfold process_flare, py_getitem, row_of.
  repeat match goal with
         | |- context [match m !! ?k with _ => _ end] =>
             let H := fresh in
             assert (is_Some (m !! k)) as [? H]
               by (apply Hreq; unfold required_keys; set_solver);
             rewrite H; simpl
         end.
  rewrite Hle; simpl. rewrite Hins; simpl. reflexivity.
Qed.

Lemma process_flare_missing (m : gmap string pyval) key :
  key ∈ required_keys → m !! key = None →
  raises (process_flare (PyDict m)).
Proof.
  intros Hkey Hnone.
  destruct (raises_or_ok (process_flare (PyDict m))) as [|[row Hrow]]; [done|].
  apply process_flare_Ok_inv in Hrow as (m' & le & ins & [= <-] & Hreq & _).
  destruct (Hreq key Hkey) as [v Hv]. congruence.
Qed.

Lemma count_of_list_length (m : gmap string pyval) key :
  list_field (m !! key) = true →
  count_of (PyDict m) key = Ok (list_length (m !! key)).
Proof.
  destruct (m !! key) as [v|] eqn:H; [destruct v; try discriminate |]; intros _.
  - by apply count_of_null.
  - by apply count_of_list.
  - by apply count_of_absent.
Qed.


Lemma process_flare_valid flare :
  valid_record flare = true →
  ∃ m, flare = PyDict m ∧
       process_flare flare =
         Ok (row_of m (list_length (m !! "linkedEvents"))
                      (list_length (m !! "instruments"))).
Proof.
  destruct flare as [| | | | | |m|]; try discriminate. simpl.
  intros [Hreq Hwt]%andb_prop. exists m. split; [done |].
  apply process_flare_Ok; [by apply has_keys_spec | |];
    apply count_of_list_length, well_typed_lists_spec; try done;
    unfold list_keys; set_solver.
Qed.

Lemma process_flare_keys flare row :
  process_flare flare = Ok row → row.*1 = row_keys.
Proof.
  intros H. apply process_flare_Ok_inv in H as (m & le & ins & _ & _ & _ & _ & ->).
  reflexivity.
Qed.

(** *** The loop *)

Lemma process_loop_Ok flares rows acc :
  Forall2 (λ flare row, process_flare flare = Ok row) flares rows →
  process_loop flares acc = Ok (acc ++ rows).
Proof.
  intros H. revert acc.
  induction H as [|flare row flares rows Hrow _ IH]; intros acc; simpl.
  - by rewrite app_nil_r.
  - rewrite Hrow. simpl. rewrite IH. by rewrite <- app_assoc.
Qed.


Lemma process_loop_raises flares acc :
  raises (process_loop flares acc) ↔
  ∃ flare, flare ∈ flares ∧ raises (process_flare flare).
Proof.
  revert acc. induction flares as [|flare flares IH]; intros acc; simpl.
  - split; [intros H; by apply not_raises_Ok in H |].
    intros (? & H & _). by apply elem_of_nil in H.
  - destruct (process_flare flare) as [row|e] eqn:Hrow; simpl.
    + rewrite IH. split.
      * intros (f & Hf & Hr). exists f. split; [by right | done].
      * intros (f & Hf & Hr). apply elem_of_cons in Hf as [-> | Hf].
        -- rewrite Hrow in Hr. by apply not_raises_Ok in Hr.
        -- eauto.
    + split; [| intros; apply raises_Raise].
      intros _. exists flare. split; [by left |].
      rewrite Hrow. apply raises_Raise.
Qed.

(** *** The table built from the rows *)

Lemma first_seen_all_seen seen keys :
  Forall (λ k, k ∈ seen) keys → first_seen seen keys = [].
Proof.
  induction 1 as [|k keys Hk _ IH]; simpl; [done |].
  by rewrite bool_decide_eq_true_2.
Qed.

Lemma first_seen_row_keys keys :
  Forall (λ k, k ∈ row_keys) keys →
  first_seen [] (row_keys ++ keys) = row_keys.
Proof.
  intros H.
  change (first_seen [] (row_keys ++ keys))
    with (row_keys ++ first_seen (reverse row_keys) keys).
  rewrite first_seen_all_seen; [by rewrite app_nil_r |].
  eapply Forall_impl; [exact H |]. intros k Hk. simpl in Hk.
  unfold row_keys in Hk. set_solver.
Qed.

Lemma fmap_fst_tag {A B} (g : A → B) (l : list A) :
  ((λ k, (k, g k)) <$> l).*1 = l.
Proof. induction l as [|k l IH]; [done | by rewrite !fmap_cons, IH]. Qed.

Lemma pd_DataFrame_columns (rows : list record) row :
  Forall (λ r, r.*1 = row_keys) (row :: rows) →
  (columns (pd_DataFrame (row :: rows))).*1 = row_keys.
Proof.
  intros H. unfold pd_DataFrame. cbn [columns].
  rewrite fmap_fst_tag. rewrite fmap_cons. cbn [concat].
  rewrite (Forall_inv H).
  apply first_seen_row_keys.
  apply Forall_inv_tail in H.
  induction H as [|r rows' Hr _ IH]; [constructor |].
  rewrite fmap_cons. cbn [concat].
  apply Forall_app. split; [| exact IH].
  rewrite Hr. by apply Forall_forall.
Qed.

Lemma row_keys_rebuild (r : record) :
  r.*1 = row_keys → (λ k, (k, default PyNone (assoc k r))) <$> row_keys = r.
Proof.
  intros H. unfold row_keys in *.
  do 10 (destruct r as [|[? ?] r]; try discriminate).
  simpl in H. simplify_eq. reflexivity.
Qed.

Lemma pd_DataFrame_row (rows : list record) i r :
  Forall (λ r, r.*1 = row_keys) rows →
  rows !! i = Some r →
  df_row (pd_DataFrame rows) i = r.
Proof.
  intros Hkeys Hi.
  destruct rows as [|row rows]; [done |].
  assert (Hr : r.*1 = row_keys).
  { eapply Forall_forall in Hkeys; [exact Hkeys |]. by eapply list_elem_of_lookup_2. }
  pose proof (pd_DataFrame_columns rows row Hkeys) as Hcols.
  unfold df_row. unfold pd_DataFrame in *. cbn [columns] in *.
  rewrite fmap_fst_tag in Hcols. rewrite Hcols.
  rewrite <- list_fmap_compose.
  etrans; [| exact (row_keys_rebuild r Hr)].
  apply list_fmap_ext. intros _ k _. unfold compose. cbn [fst snd].
  by rewrite list_lookup_fmap, Hi.
Qed.

Lemma pd_DataFrame_nrows (rows : list record) :
  nrows (pd_DataFrame rows) = length rows.
Proof. reflexivity. Qed.

(** *** What [process_data] returns and when it raises *)

Lemma process_data_Ok flares rows :
  Forall2 (λ flare row, process_flare flare = Ok row) flares rows →
  process_data (PyList flares) = Ok (pd_DataFrame rows).
Proof.
  intros H. unfold process_data. simpl.
  by rewrite (process_loop_Ok flares rows []).
Qed.

Lemma process_data_raises flares :
  raises (process_data (PyList flares)) ↔
  ∃ flare, flare ∈ flares ∧ raises (process_flare flare).
Proof.
  rewrite <- (process_loop_raises flares []).
  unfold process_data. simpl.
  destruct (process_loop flares []) as [rows|e]; simpl.
  - split; intros H; by apply not_raises_Ok in H.
  - split; intros _; apply raises_Raise.
Qed.

Lemma valid_records_rows flares :
  forallb valid_record flares = true →
  ∃ rows, Forall2 (λ flare row, process_flare flare = Ok row) flares rows.
Proof.
  induction flares as [|flare flares IH]; simpl.
  - exists []. constructor.
  - intros [Hv Hrest]%andb_prop.
    destruct (process_flare_valid flare Hv) as (m & _ & Hrow).
    destruct (IH Hrest) as [rows Hrows].
    eexists (_ :: rows). by constructor.
Qed.

Lemma row_of_derived (m : gmap string pyval) :
  row_derived_from (row_of m (list_length (m !! "linkedEvents"))
                             (list_length (m !! "instruments"))) m.
Proof.
  unfold row_derived_from, row_of, required_keys. split_and!; try reflexivity.
  - intros key s Hkey Hs.
    repeat (apply elem_of_cons in Hkey as [-> | Hkey];
            [cbn [assoc String.eqb Ascii.eqb Bool.eqb]; by rewrite Hs |]).
    by apply elem_of_nil in Hkey.
  - intros key Hkey.
    repeat (apply elem_of_cons in Hkey as [-> | Hkey]; [by eexists |]).
    by apply elem_of_nil in Hkey.
Qed.

(** C7. For every valid sequence of input records the transformation
    returns a table with exactly one row per record, in input order: the
    table is as long as the input, and its [i]-th row comes from the
    [i]-th record: it has that record's text fields (identifier, times,
    class designation, source location) unchanged, is NA exactly where the
    record is null, and holds the record's two counts. *)
Theorem process_data_preserves_length_and_order (flares : list pyval) :
  forallb valid_record flares = true →
  ∃ df, process_data (PyList flares) = Ok df ∧
        df_len df = Z.of_nat (length flares) ∧
        ∀ i flare, flares !! i = Some flare →
                   ∃ m, flare = PyDict m ∧ row_derived_from (df_row df i) m.
Proof.
  intros Hvalid.
  destruct (valid_records_rows flares Hvalid) as [rows Hrows].
  exists (pd_DataFrame rows). split_and!.
  - by apply process_data_Ok.
  - unfold df_len. rewrite pd_DataFrame_nrows.
    by rewrite (Forall2_length _ _ _ Hrows).
  - intros i flare Hi.
    destruct (Forall2_lookup_l _ _ _ _ _ Hrows Hi) as (row & Hrow & Hok).
    assert (Hv : valid_record flare = true).
    { rewrite forallb_forall in Hvalid.
      by eapply Hvalid, list_elem_of_In, list_elem_of_lookup_2. }
    destruct (process_flare_valid flare Hv) as (m & -> & Hrow_of).
    exists m. split; [done |].
    rewrite (pd_DataFrame_row rows i row); [| | done].
    + rewrite Hrow_of in Hok. injection Hok as <-. apply row_of_derived.
    + clear -Hrows. induction Hrows; constructor; eauto using process_flare_keys.
Qed.

(** C3, as amended.  Among records whose list fields are absent, null or
    lists, the transformation fails exactly when some record lacks one of
    the seven keys it reads by subscript: the identifier, the class
    designation, the three times, the source location and the
    active-region number.  A record with these seven keys and neither list
    field is transformed, with both counts 0. *)
Theorem process_data_fails_iff_key_missing (records : list (gmap string pyval)) :
  forallb well_typed_lists records = true →
  (raises (process_data (PyList (PyDict <$> records))) ↔
   ∃ m key, m ∈ records ∧ key ∈ required_keys ∧ m !! key = None) ∧
  (∀ m : gmap string pyval,
     has_keys required_keys m = true →
     m !! "linkedEvents" = None → m !! "instruments" = None →
     process_flare (PyDict m) = Ok (row_of m 0 0)).
Proof.
  intros Hwt. split.
  - rewrite process_data_raises. split.
    + intros (flare & Hin & Hraise).
      apply list_elem_of_fmap in Hin as (m & -> & Hm).
      destruct (has_keys required_keys m) eqn:Hreq.
      * exfalso.
        assert (Hv : valid_record (PyDict m) = true).
        { unfold valid_record. rewrite Hreq. simpl.
          rewrite forallb_forall in Hwt. by apply Hwt, list_elem_of_In. }
        destruct (process_flare_valid _ Hv) as (? & _ & Hok).
        rewrite Hok in Hraise. by apply not_raises_Ok in Hraise.
      * apply has_keys_false in Hreq as (key & ? & ?). by exists m, key.
    + intros (m & key & Hm & Hkey & Hnone).
      exists (PyDict m). split; [by apply list_elem_of_fmap_2 |].
      by eapply process_flare_missing.
  - intros m Hreq Hle Hins.
    apply process_flare_Ok; [by apply has_keys_spec | |];
      by apply count_of_absent.
Qed.

Lemma process_data_fails_iff_key_missing_witness :
  (raises (process_data (PyList (PyDict <$> [Sample.plain_flare; Sample.bare_flare]))) ↔
   ∃ m key, m ∈ [Sample.plain_flare; Sample.bare_flare] ∧
            key ∈ required_keys ∧ m !! key = None) ∧
  process_flare (PyDict Sample.plain_flare) = Ok (row_of Sample.plain_flare 0 0).
Proof.
  destruct (process_data_fails_iff_key_missing
              [Sample.plain_flare; Sample.bare_flare]) as [Hiff Hrow].
  - vm_compute. reflexivity.
  - split; [exact Hiff |].
    apply Hrow; vm_compute; reflexivity.
Defined.

(** C3, as stated, fails: a record with every field the specification
    calls required, and none of the optional ones, makes the
    transformation raise [KeyError('sourceLocation')]. *)
Lemma spec_required_fields_do_not_suffice :
  process_data (PyList [PyDict Sample.bare_flare]) = Raise (KeyError "sourceLocation") ∧
  ¬ fails_iff_spec_field_missing [Sample.bare_flare].
Proof.
  assert (Hrun : process_data (PyList [PyDict Sample.bare_flare])
                 = Raise (KeyError "sourceLocation")) by (vm_compute; reflexivity).
  split; [exact Hrun |].
  unfold fails_iff_spec_field_missing. intros [Hmissing _].
  destruct Hmissing as (m & key & Hm & Hkey & Hnone).
  { simpl. rewrite Hrun. apply raises_Raise. }
  apply list_elem_of_singleton in Hm as ->.
  unfold spec_required_keys in Hkey.
  repeat (apply elem_of_cons in Hkey as [-> | Hkey];
          [vm_compute in Hnone; discriminate |]).
  by apply elem_of_nil in Hkey.
Qed.

Lemma process_data_preserves_length_and_order_witness :
  ∃ df, process_data (PyList [PyDict Sample.plain_flare;
                               Sample.flare "b" "2024-01-03T01:00Z" "X1.0"]) = Ok df ∧
        df_len df = 2 ∧
        ∀ i flare,
          [PyDict Sample.plain_flare;
           Sample.flare "b" "2024-01-03T01:00Z" "X1.0"] !! i = Some flare →
          ∃ m, flare = PyDict m ∧ row_derived_from (df_row df i) m.
Proof.
  apply (process_data_preserves_length_and_order
           [PyDict Sample.plain_flare; Sample.flare "b" "2024-01-03T01:00Z" "X1.0"]).
  vm_compute. reflexivity.
Defined.

(** C8. The linked-event and instrument counts are the length of the
    list when the field holds a list, and 0 when it is null or absent;
    neither case raises, a count is never negative, and these are the
    counts stored in the row. *)
Theorem counts_are_list_lengths (m : gmap string pyval) (key : string) :
  (∀ l, m !! key = Some (PyList l) →
        count_of (PyDict m) key = Ok (Z.of_nat (length l))) ∧
  (m !! key = Some PyNone ∨ m !! key = None →
   count_of (PyDict m) key = Ok 0) ∧
  (∀ n, count_of (PyDict m) key = Ok n → 0 ≤ n) ∧
  (∀ row, process_flare (PyDict m) = Ok row →
     ∃ linkedEvents instruments,
       count_of (PyDict m) "linkedEvents" = Ok linkedEvents ∧
       count_of (PyDict m) "instruments" = Ok instruments ∧
       assoc "linkedEvents" row = Some (PyInt linkedEvents) ∧
       assoc "instruments" row = Some (PyInt instruments)).
Proof.
  split_and!.
  - intros l H. by apply count_of_list.
  - intros [H | H]; [by apply count_of_null | by apply count_of_absent].
  - intros n. apply count_of_nonneg.
  - intros row H.
    apply process_flare_Ok_inv in H as (m' & le & ins & [= <-] & _ & Hle & Hins & ->).
    by exists le, ins.
Qed.

Lemma counts_are_list_lengths_witness :
  count_of (Sample.flare "a" "2024-01-02T10:30Z" "M2.3") "instruments" = Ok 1 ∧
  count_of (Sample.flare "a" "2024-01-02T10:30Z" "M2.3") "linkedEvents" = Ok 0 ∧
  count_of (PyDict Sample.plain_flare) "linkedEvents" = Ok 0.
Proof.
  split_and!.
  - apply (proj1 (counts_are_list_lengths _ "instruments") [PyDict ∅]).
    vm_compute. reflexivity.
  - apply (proj1 (proj2 (counts_are_list_lengths _ "linkedEvents"))).
    left. vm_compute. reflexivity.
  - apply (proj1 (proj2 (counts_are_list_lengths _ "linkedEvents"))).
    right. vm_compute. reflexivity.
Defined.

(** ** The intensity of a class designation *)

Lemma mapM_cons_Ok {A B} (f : A → result B) x l y ys :
  f x = Ok y → mapM f l = Ok ys → mapM f (x :: l) = Ok (y :: ys).
Proof. intros Hx Hl. simpl. rewrite Hx. simpl. by rewrite Hl. Qed.

Lemma mapM_raises {A B} (f : A → result B) x l :
  x ∈ l → raises (f x) → raises (mapM f l).
Proof.
  intros Hin Hx. induction l as [|y l IH]; [by apply elem_of_nil in Hin |].
  simpl. apply elem_of_cons in Hin as [<- | Hin].
  - destruct Hx as [e ->]. apply raises_Raise.
  - destruct (f y); [| apply raises_Raise]. simpl.
    destruct (IH Hin) as [e ->]. apply raises_Raise.
Qed.


Lemma intensity_first_char c rest :
  intensity (PyStr (String c rest)) = Ok (Z.of_N (N_of_ascii c) - 65).
Proof. reflexivity. Qed.

(** C1.  What the source computes for the five class letters is the
    letter's code point less 65: 0, 1, 2, 12 and 23, so [M2.3] gets 12 and
    [X1.0] gets 23, while the axis of the same figure puts the labels A,
    B, C, M, X at 0, 5, 10, 15 and 20. *)
Theorem intensity_of_class_letters (rest : string) :
  intensity (PyStr (String "A" rest)) = Ok 0 ∧
  intensity (PyStr (String "B" rest)) = Ok 1 ∧
  intensity (PyStr (String "C" rest)) = Ok 2 ∧
  intensity (PyStr (String "M" rest)) = Ok 12 ∧
  intensity (PyStr (String "X" rest)) = Ok 23 ∧
  intensity (PyStr "M2.3") = Ok 12 ∧
  intensity (PyStr "X1.0") = Ok 23 ∧
  zip (py_range 0 24 5) ["A"; "B"; "C"; "M"; "X"]
    = [(0, "A"); (5, "B"); (10, "C"); (15, "M"); (20, "X")].
Proof. split_and!; reflexivity. Qed.

(** The scenario of two flares, [M2.3] and [X1.0]: the scatter figure the
    page draws has the points at 12 and 23 under ticks at 0, 5, ..., 20. *)
Lemma scatter_of_two_flares :
  let upstream :=
    Sample.upstream 200
      (PyList [Sample.flare "a" "2024-01-01T00:00Z" "M2.3";
               Sample.flare "b" "2024-01-02T00:00Z" "X1.0"]) in
  (run (main upstream Sample.value_counts Sample.to_datetime
             Sample.jan1 Sample.jan3 true)).1 !! 20%nat
  = Some (PlotlyChart
            (Scatter [PyTimestamp (19723 * NS_PER_DAY); PyTimestamp (19724 * NS_PER_DAY)]
                     [PyInt 12; PyInt 23]
                     [PyStr "M2.3"; PyStr "X1.0"]
                     [0; 5; 10; 15; 20] ["A"; "B"; "C"; "M"; "X"] (-1, 24))).
Proof. vm_compute. reflexivity. Qed.

(** C10. The intensity derivation raises on the empty class designation
    ([x[0]] is out of range), so a column that holds one makes the scatter
    view fail; on every non-empty class designation it returns. *)
Theorem intensity_total_only_on_nonempty_class :
  intensity (PyStr "") = Raise IndexError ∧
  (∀ cells, PyStr "" ∈ cells → raises (mapM intensity cells)) ∧
  (∀ df cells, df_getitem df "classType" = Ok cells → PyStr "" ∈ cells →
               ∃ trace e, run (scatter_tab df) = (trace, Raise e)) ∧
  (∀ classes : list string, Forall (λ s, s ≠ "") classes →
     ∃ values, mapM intensity (PyStr <$> classes) = Ok values).
Proof.
  split_and!.
  - reflexivity.
  - intros cells Hin. eapply mapM_raises; [exact Hin |]. apply raises_Raise.
  - intros df cells Hcol Hin.
    assert (raises (mapM intensity cells)) as [e He].
    { eapply mapM_raises; [exact Hin |]. apply raises_Raise. }
    unfold scatter_tab, run. do 2 eexists.
    unfold mbind, ui_bind, emit, lift. simpl. rewrite Hcol. simpl. rewrite He.
    reflexivity.
  - intros classes H. induction H as [|s classes Hs _ [values IH]].
    + by exists [].
    + destruct s as [|c rest]; [done |].
      eexists. rewrite fmap_cons.
      eapply mapM_cons_Ok; [apply intensity_first_char | exact IH].
Qed.

Lemma intensity_total_only_on_nonempty_class_witness :
  raises (mapM intensity [PyStr "M2.3"; PyStr ""]) ∧
  (∃ trace e,
     run (scatter_tab (pd_DataFrame [[("classType", PyStr "")]])) = (trace, Raise e)) ∧
  ∃ values, mapM intensity (PyStr <$> ["M2.3"; "X1.0"]) = Ok values.
Proof.
  destruct intensity_total_only_on_nonempty_class as (_ & Hcells & Hview & Htotal).
  split_and!.
  - apply Hcells. repeat constructor.
  - apply (Hview _ [PyStr ""]); [vm_compute; reflexivity | repeat constructor].
  - apply Htotal. repeat constructor; discriminate.
Defined.

(** A record with an empty class designation passes the transformation
    and the first two tabs, and stops the page in the third. *)
Lemma main_raises_on_empty_class :
  let upstream :=
    Sample.upstream 200 (PyList [Sample.flare "a" "2024-01-02T10:30Z" ""]) in
  (run (main upstream Sample.value_counts Sample.to_datetime
             Sample.jan1 Sample.jan3 true)).2 = Raise IndexError.
Proof. vm_compute. reflexivity. Qed.

(** ** The page *)

Lemma date_gt_not_le (a b : date) : date_gt a b = true → date_le a b = false.
Proof.
  unfold date_gt, date_le.
  destruct (year a =? year b) eqn:Hy.
  - destruct (month a =? month b) eqn:Hm; lia.
  - lia.
Qed.


Section PageProperties.

Variable requests_get : string → result response.
Variable value_counts : list pyval → result (list (pyval * Z)).
Variable to_datetime : list pyval → result (list Z).

(** C6. When the start date is after the end date the run shows the
    header, the error message and the footer and nothing else: no request
    is sent and nothing of the analysis is computed or shown, whether or
    not the button was pressed. *)
Theorem invalid_range_runs_nothing (start_date end_date : date) (clicked : bool) :
  date_gt start_date end_date = true →
  let page := page_header
              ++ [StError "Error: End date must be after start date."]
              ++ page_footer in
  run (main requests_get value_counts to_datetime start_date end_date clicked)
    = (page, Ok tt) ∧
  (∀ url, HttpGet url ∉ page) ∧
  Forall (λ e, pipeline_event e = false) page.
Proof.
  intros Hgt page. split_and!.
  - unfold main, run. rewrite (date_gt_not_le _ _ Hgt). reflexivity.
  - intros url Hin. unfold page, page_header, page_footer in Hin.
    simpl in Hin.
    repeat (apply elem_of_cons in Hin as [Hin | Hin]; [discriminate |]).
    by apply elem_of_nil in Hin.
  - unfold page, page_header, page_footer. simpl.
    repeat constructor.
Qed.

Lemma get_solar_flare_data_run (start_date end_date : date) (r : response) tr :
  requests_get (request_url start_date end_date) = Ok r →
  get_solar_flare_data requests_get start_date end_date tr
  = (tr ++ [HttpGet (request_url start_date end_date)],
     if status_code r =? 200 then json r
     else Raise (Exception ("API call failed with status code "
                            +:+ pretty (status_code r)))).
Proof.
  intros Hget. unfold get_solar_flare_data, mbind, ui_bind, emit, lift.
  fold (request_url start_date end_date). rewrite Hget.
  by destruct (status_code r =? 200).
Qed.

Lemma main_run_valid_range (start_date end_date : date) (r : response) :
  date_le start_date end_date = true →
  requests_get (request_url start_date end_date) = Ok r →
  run (main requests_get value_counts to_datetime start_date end_date true)
  = let tr := page_header
              ++ [Button "Analyze Solar Flares";
                  Spinner "Fetching and processing data...";
                  HttpGet (request_url start_date end_date)] in
    match (if status_code r =? 200 then json r
           else Raise (Exception ("API call failed with status code "
                                  +:+ pretty (status_code r)))) with
    | Raise e => (tr, Raise e)
    | Ok data =>
        (df ← lift (process_data data);
         _ ← emit (Markdown ("## Total Flares: " +:+ pretty (df_len df)));
         _ ← emit (Tabs ["Pie Chart"; "Flare Timeline"; "Advanced Analysis"]);
         df ← pie_tab value_counts df;
         df ← timeline_tab to_datetime df;
         _ ← scatter_tab df;
         _ ← mret tt;
         _ ← emit (Markdown "---");
         emit (Markdown " | Data source: NASA DONKI API - Real-time data from the Space Weather Database Of Notifications, Knowledge, Information (DONKI) by Auth. NASA data Sources - HRS")) tr
    end.
Proof.
  intros Hle Hget. unfold main, run. rewrite Hle.
  unfold mbind, ui_bind, mret, ui_ret, emit, lift, page_header.
  cbv beta iota. cbn [app].
  rewrite (get_solar_flare_data_run _ _ r _ Hget). cbn [app].
  destruct (if status_code r =? 200 then json r else _) as [data|e]; [| reflexivity].
  destruct (process_data data) as [df|e]; [| reflexivity].
  destruct (pie_tab _ _ _) as [tr3 [df3|e3]]; [| reflexivity].
  destruct (timeline_tab _ _ _) as [tr4 [df4|e4]]; [| reflexivity].
  destruct (scatter_tab _ _) as [tr5 [df5|e5]]; reflexivity.
Qed.

(** C5. With the upstream's reply in hand, the fetch returns what
    decoding its body gives when the status is 200; for any other status
    it raises an exception whose message ends with the status code, and
    the run of the page stops at the request: nothing is transformed or
    shown after it. *)
Theorem fetch_returns_json_or_raises_status (start_date end_date : date) (r : response) :
  requests_get (request_url start_date end_date) = Ok r →
  let failure := Exception ("API call failed with status code "
                            +:+ pretty (status_code r)) in
  (status_code r = 200 →
   run (get_solar_flare_data requests_get start_date end_date)
     = ([HttpGet (request_url start_date end_date)], json r)) ∧
  (status_code r ≠ 200 →
   run (get_solar_flare_data requests_get start_date end_date)
     = ([HttpGet (request_url start_date end_date)], Raise failure) ∧
   (date_le start_date end_date = true →
    run (main requests_get value_counts to_datetime start_date end_date true)
      = (page_header
         ++ [Button "Analyze Solar Flares";
             Spinner "Fetching and processing data...";
             HttpGet (request_url start_date end_date)],
         Raise failure))).
Proof.
  intros Hget failure. split.
  - intros H200. unfold run. rewrite (get_solar_flare_data_run _ _ r _ Hget).
    by rewrite (proj2 (Z.eqb_eq _ _) H200).
  - intros Hnot. apply Z.eqb_neq in Hnot. split.
    + unfold run. rewrite (get_solar_flare_data_run _ _ r _ Hget).
      by rewrite Hnot.
    + intros Hle. rewrite (main_run_valid_range _ _ r Hle Hget).
      by rewrite Hnot.
Qed.

(** C2.  On an empty array with status 200 the run shows a total of 0 and
    then raises [KeyError('classType')] at the first view, because the
    table built from an empty list has no columns; the other two views
    are never reached. *)
Theorem empty_array_raises_in_first_view (start_date end_date : date) (r : response) :
  date_le start_date end_date = true →
  requests_get (request_url start_date end_date) = Ok r →
  status_code r = 200 →
  json r = Ok (PyList []) →
  run (main requests_get value_counts to_datetime start_date end_date true)
    = (page_header
       ++ [Button "Analyze Solar Flares";
           Spinner "Fetching and processing data...";
           HttpGet (request_url start_date end_date);
           Markdown "## Total Flares: 0";
           Tabs ["Pie Chart"; "Flare Timeline"; "Advanced Analysis"];
           InTab 0;
           Markdown "This section provides an overview of the solar flare data and the distribution of their class types.";
           Subheader "Distribution of Flare Class Types"],
       Raise (KeyError "classType")).
Proof.
  intros Hle Hget H200 Hjson.
  rewrite (main_run_valid_range _ _ r Hle Hget).
  rewrite H200, Hjson. reflexivity.
Qed.

End PageProperties.

(** ** Daily buckets *)

Lemma day_of_mono a b : a ≤ b → day_of a ≤ day_of b.
Proof. intros H. unfold day_of. apply Z.div_le_mono; [done | exact H]. Qed.

Lemma day_of_min a b : day_of (Z.min a b) = Z.min (day_of a) (day_of b).
Proof.
  destruct (Z.le_ge_cases a b) as [H | H].
  - pose proof (day_of_mono _ _ H). by rewrite !Z.min_l.
  - pose proof (day_of_mono _ _ H). by rewrite !Z.min_r.
Qed.

Lemma day_of_max a b : day_of (Z.max a b) = Z.max (day_of a) (day_of b).
Proof.
  destruct (Z.le_ge_cases a b) as [H | H].
  - pose proof (day_of_mono _ _ H). by rewrite !Z.max_r.
  - pose proof (day_of_mono _ _ H). by rewrite !Z.max_l.
Qed.

Lemma foldr_min_day t ts :
  foldr Z.min (day_of t) (day_of <$> ts) = day_of (foldr Z.min t ts).
Proof.
  induction ts as [|u ts IH]; [done |].
  rewrite fmap_cons. cbn [foldr]. by rewrite IH, day_of_min.
Qed.

Lemma foldr_max_day t ts :
  foldr Z.max (day_of t) (day_of <$> ts) = day_of (foldr Z.max t ts).
Proof.
  induction ts as [|u ts IH]; [done |].
  rewrite fmap_cons. cbn [foldr]. by rewrite IH, day_of_max.
Qed.

Lemma foldr_min_elem t ts : foldr Z.min t ts ∈ t :: ts.
Proof.
  induction ts as [|u ts IH]; simpl; [by left |].
  destruct (Z.min_spec u (foldr Z.min t ts)) as [[_ ->] | [_ ->]].
  - right. by left.
  - apply elem_of_cons in IH as [-> | IH]; [by left | by do 2 right].
Qed.

Lemma foldr_max_elem t ts : foldr Z.max t ts ∈ t :: ts.
Proof.
  induction ts as [|u ts IH]; simpl; [by left |].
  destruct (Z.max_spec u (foldr Z.max t ts)) as [[_ ->] | [_ ->]].
  - apply elem_of_cons in IH as [-> | IH]; [by left | by do 2 right].
  - right. by left.
Qed.

Lemma foldr_min_le t ts x : x ∈ t :: ts → foldr Z.min t ts ≤ x.
Proof.
  induction ts as [|u ts IH]; simpl.
  - intros ->%list_elem_of_singleton. lia.
  - intros [-> | [-> | H]%elem_of_cons]%elem_of_cons.
    + assert (foldr Z.min t ts ≤ t) by (apply IH; by left). lia.
    + lia.
    + assert (foldr Z.min t ts ≤ x) by (apply IH; by right). lia.
Qed.

Lemma foldr_max_ge t ts x : x ∈ t :: ts → x ≤ foldr Z.max t ts.
Proof.
  induction ts as [|u ts IH]; simpl.
  - intros ->%list_elem_of_singleton. lia.
  - intros [-> | [-> | H]%elem_of_cons]%elem_of_cons.
    + assert (t ≤ foldr Z.max t ts) by (apply IH; by left). lia.
    + lia.
    + assert (x ≤ foldr Z.max t ts) by (apply IH; by right). lia.
Qed.

(** The buckets of a non-empty index, by its earliest and latest
    timestamps. *)
Lemma resample_D_count_unfold t ts values :
  let earliest := foldr Z.min t ts in
  let latest := foldr Z.max t ts in
  resample_D_count (t :: ts) values
  = (λ d, (day_label d, count_on d (t :: ts) values))
      <$> seqZ (day_of earliest) (day_of latest - day_of earliest + 1).
Proof.
  intros earliest latest. unfold resample_D_count.
  by rewrite foldr_min_day, foldr_max_day.
Qed.

Lemma resample_D_count_days index values first n :
  ((λ d, (day_label d, count_on d index values)) <$> seqZ first n).*1
  = day_label <$> seqZ first n.
Proof. rewrite <- list_fmap_compose. by apply list_fmap_ext. Qed.

Lemma resample_D_count_counts index values first n :
  ((λ d, (day_label d, count_on d index values)) <$> seqZ first n).*2
  = (λ d, count_on d index values) <$> seqZ first n.
Proof. rewrite <- list_fmap_compose. by apply list_fmap_ext. Qed.

Lemma day_label_inj : Inj (=) (=) day_label.
Proof. intros a b H. unfold day_label, NS_PER_DAY in H. lia. Qed.

(** *** Counting *)


Lemma total_fmap_add {A} (f g : A → Z) (l : list A) :
  total ((λ x, f x + g x) <$> l) = total (f <$> l) + total (g <$> l).
Proof.
  induction l as [|x l IH]; [done |].
  rewrite !fmap_cons. cbn [total]. rewrite IH. lia.
Qed.

Lemma total_fmap_zero {A} (l : list A) : total ((λ _, 0) <$> l) = 0.
Proof.
  induction l as [|x l IH]; [done |].
  rewrite fmap_cons. cbn [total]. by rewrite IH.
Qed.

Lemma total_indicator (P : Z → Prop) `{∀ d, Decision (P d)} (x : Z) (l : list Z) :
  NoDup l → (∀ d, P d ↔ d = x) →
  total ((λ d, if decide (P d) then 1 else 0) <$> l) = if decide (x ∈ l) then 1 else 0.
Proof.
  intros Hnd HP. induction Hnd as [|d l Hd Hnd IH]; [done |].
  rewrite fmap_cons. cbn [total].
  rewrite IH. destruct (decide (P d)) as [Hp | Hp].
  - apply HP in Hp as ->.
    rewrite (decide_False (P := x ∈ l)) by done.
    rewrite (decide_True (P := x ∈ x :: l)) by (by left). done.
  - assert (d ≠ x) by (intros ->; by apply Hp, HP).
    destruct (decide (x ∈ l)) as [Hin | Hin].
    + rewrite decide_True by (by right). done.
    + rewrite decide_False; [done |].
      intros [-> | ?]%elem_of_cons; done.
Qed.


Lemma count_on_cons d t v index values :
  count_on d (t :: index) (v :: values)
  = (if decide (day_of t = d ∧ isna v = false) then 1 else 0)
    + count_on d index values.
Proof.
  unfold count_on. cbn [zip zip_with]. rewrite filter_cons. cbn [fst snd].
  destruct (decide (day_of t = d ∧ isna v = false)); simpl length; lia.
Qed.

Lemma count_on_no_event d index values :
  (∀ t, t ∈ index → day_of t ≠ d) → count_on d index values = 0.
Proof.
  revert values. induction index as [|t index IH]; intros values Hno; [done |].
  destruct values as [|v values]; [done |].
  rewrite count_on_cons, IH.
  - rewrite decide_False; [done |]. intros [Hd _]. apply (Hno t); [by left | done].
  - intros u Hu. apply Hno. by right.
Qed.

(** Over a duplicate-free list of days that holds every day of the
    index, the counts add up to the number of rows with a non-NA value. *)
Lemma total_count_on (days : list Z) index values :
  NoDup days → Forall (λ t, day_of t ∈ days) index →
  total ((λ d, count_on d index values) <$> days)
  = Z.of_nat (length (filter (λ tv, isna tv.2 = false) (zip index values))).
Proof.
  intros Hnd Hin. revert values.
  induction Hin as [|t index Ht Hin IH]; intros values.
  - erewrite list_fmap_ext; [apply total_fmap_zero | done].
  - destruct values as [|v values].
    { erewrite list_fmap_ext; [apply total_fmap_zero | done]. }
    erewrite list_fmap_ext; [| intros ? d _; apply count_on_cons].
    rewrite (total_fmap_add
               (λ d, if decide (day_of t = d ∧ isna v = false) then 1 else 0)
               (λ d, count_on d index values)).
    rewrite IH. cbn [zip zip_with]. rewrite filter_cons. cbn [snd].
    destruct (decide (isna v = false)) as [Hv | Hv].
    + rewrite (total_indicator _ (day_of t)); [| done |];
        [| intros d; split; [by intros [<- _] | by intros ->] ].
      rewrite decide_True by done. simpl length. lia.
    + erewrite list_fmap_ext; [rewrite total_fmap_zero; lia |].
      intros ? d _. simpl. rewrite decide_False; [done | by intros [_ ?] ].
Qed.

(** *** The timeline tab draws these buckets *)

Lemma assoc_set_col_eq name cells (cols : list (string * list pyval)) :
  assoc name (set_col name cells cols) = Some cells.
Proof.
  induction cols as [|[k c] cols IH]; simpl.
  - by rewrite String.eqb_refl.
  - destruct (String.eqb k name) eqn:E; simpl; by rewrite E.
Qed.

Lemma assoc_set_col_ne name other cells (cols : list (string * list pyval)) :
  name ≠ other → assoc other (set_col name cells cols) = assoc other cols.
Proof.
  intros Hne. induction cols as [|[k c] cols IH]; simpl.
  - by rewrite (proj2 (String.eqb_neq _ _) Hne).
  - destruct (String.eqb k name) eqn:E; simpl.
    + apply String.eqb_eq in E as ->.
      by rewrite (proj2 (String.eqb_neq _ _) Hne).
    + by rewrite IH.
Qed.

Lemma mapM_as_timestamp (parsed : list Z) :
  mapM as_timestamp (PyTimestamp <$> parsed) = Ok parsed.
Proof.
  induction parsed as [|t parsed IH]; [done |].
  rewrite fmap_cons. by apply mapM_cons_Ok.
Qed.

Lemma timeline_tab_run (to_datetime : list pyval → result (list Z))
    (df : DataFrame) (beginTime flrID : list pyval) (parsed : list Z) tr :
  df_getitem df "beginTime" = Ok beginTime →
  df_getitem df "flrID" = Ok flrID →
  to_datetime beginTime = Ok parsed →
  length parsed = nrows df →
  ∃ df', timeline_tab to_datetime df tr
         = (tr ++ [InTab 1; Subheader "Number of Flares Over Time";
                   PlotlyChart (Line (resample_D_count parsed flrID))],
            Ok df').
Proof.
  intros Hbegin Hid Hparsed Hlen. eexists.
  unfold timeline_tab, mbind, ui_bind, emit, lift. rewrite Hbegin.
  cbv beta iota. rewrite Hparsed. cbv beta iota.
  unfold df_setitem. rewrite length_fmap, bool_decide_eq_true_2 by done.
  cbv beta iota. unfold df_getitem in *. cbn [columns].
  rewrite assoc_set_col_eq. cbn [result_bind].
  rewrite mapM_as_timestamp. cbv beta iota.
  rewrite assoc_set_col_ne by done.
  destruct (assoc "flrID" (columns df)); [| discriminate].
  injection Hid as ->. cbv beta iota.
  by rewrite <- !app_assoc.
Qed.

(** C4, as amended.  For a non-empty row sequence the timeline's buckets
    are the consecutive calendar days from the first day that has an event
    to the last one, whatever range was requested, and a day in between
    without events gets a bucket with count 0. *)
Theorem timeline_spans_first_to_last_event_day (rows : list (Z * pyval)) :
  rows ≠ [] →
  let daily_counts := resample_D_count rows.*1 rows.*2 in
  ∃ first last,
    (∃ r, r ∈ rows ∧ day_of r.1 = first) ∧
    (∃ r, r ∈ rows ∧ day_of r.1 = last) ∧
    (∀ r, r ∈ rows → first ≤ day_of r.1 ≤ last) ∧
    daily_counts.*1 = day_label <$> seqZ first (last - first + 1) ∧
    (∀ d, first ≤ d ≤ last → (∀ r, r ∈ rows → day_of r.1 ≠ d) →
          (day_label d, 0) ∈ daily_counts).
Proof.
  destruct rows as [|[t v] rows]; [done |]. intros _ daily_counts.
  set (ts := rows.*1).
  assert (Hall : ∀ r, r ∈ (t, v) :: rows → r.1 ∈ t :: ts).
  { intros r Hr. change (t :: ts) with (((t, v) :: rows).*1).
    by apply list_elem_of_fmap_2. }
  assert (Hback : ∀ u, u ∈ t :: ts → ∃ r, r ∈ (t, v) :: rows ∧ r.1 = u).
  { intros u Hu. change (t :: ts) with (((t, v) :: rows).*1) in Hu.
    apply list_elem_of_fmap in Hu as (r & -> & Hr). eauto. }
  exists (day_of (foldr Z.min t ts)), (day_of (foldr Z.max t ts)).
  unfold daily_counts. rewrite !fmap_cons. cbn [fst snd]. fold ts.
  rewrite resample_D_count_unfold. cbv zeta. split_and!.
  - destruct (Hback _ (foldr_min_elem t ts)) as (r & Hr & Heq).
    exists r. by rewrite Heq.
  - destruct (Hback _ (foldr_max_elem t ts)) as (r & Hr & Heq).
    exists r. by rewrite Heq.
  - intros r Hr. apply Hall in Hr.
    split; apply day_of_mono; [by apply foldr_min_le | by apply foldr_max_ge].
  - apply resample_D_count_days.
  - intros d Hd Hno. apply list_elem_of_fmap. exists d. split.
    + f_equal. symmetry. apply count_on_no_event.
      intros u Hu. destruct (Hback u Hu) as (r & Hr & <-). by apply Hno.
    + apply elem_of_seqZ. lia.
Qed.

(** C9, as amended.  For a non-empty sequence of rows that each carry a
    parsed begin time, the timeline has exactly one bucket for each
    calendar day from the day of the earliest begin time to the day of the
    latest, in order and without gaps, and the counts add up to the number
    of rows whose identifier is not null; that is the number of rows when
    no identifier is null. *)
Theorem timeline_buckets_cover_days_and_count_identified_rows
    (rows : list (Z * pyval)) :
  rows ≠ [] →
  let daily_counts := resample_D_count rows.*1 rows.*2 in
  ∃ earliest latest,
    earliest ∈ rows.*1 ∧ latest ∈ rows.*1 ∧
    (∀ t, t ∈ rows.*1 → earliest ≤ t ≤ latest) ∧
    daily_counts.*1
      = day_label <$> seqZ (day_of earliest) (day_of latest - day_of earliest + 1) ∧
    NoDup daily_counts.*1 ∧
    Z.of_nat (length daily_counts) = day_of latest - day_of earliest + 1 ∧
    total daily_counts.*2
      = Z.of_nat (length (filter (λ r, isna r.2 = false) rows)) ∧
    (Forall (λ r, isna r.2 = false) rows →
     total daily_counts.*2 = Z.of_nat (length rows)).
Proof.
  destruct rows as [|[t v] rows]; [done |]. intros _ daily_counts.
  set (ts := rows.*1).
  exists (foldr Z.min t ts), (foldr Z.max t ts).
  assert (Hspan : day_of (foldr Z.min t ts) ≤ day_of (foldr Z.max t ts)).
  { apply day_of_mono. etrans; [apply (foldr_min_le t ts t); by left |].
    apply foldr_max_ge. by left. }
  assert (Htotal :
    total (resample_D_count ((t, v) :: rows).*1 ((t, v) :: rows).*2).*2
    = Z.of_nat (length (filter (λ r, isna r.2 = false) ((t, v) :: rows)))).
  { rewrite !fmap_cons. cbn [fst snd]. fold ts.
    rewrite resample_D_count_unfold. cbv zeta.
    rewrite resample_D_count_counts.
    change (t :: ts) with (((t, v) :: rows).*1).
    change (v :: rows.*2) with (((t, v) :: rows).*2).
    rewrite total_count_on.
    - by rewrite zip_fst_snd.
    - apply NoDup_seqZ.
    - apply Forall_forall. intros u Hu. apply elem_of_seqZ.
      change (((t, v) :: rows).*1) with (t :: ts) in Hu.
      pose proof (day_of_mono _ _ (foldr_min_le t ts u Hu)).
      pose proof (day_of_mono _ _ (foldr_max_ge t ts u Hu)). lia. }
  split_and!; try exact Htotal.
  - apply foldr_min_elem.
  - apply foldr_max_elem.
  - intros u Hu. split; [by apply foldr_min_le | by apply foldr_max_ge].
  - unfold daily_counts. rewrite !fmap_cons. cbn [fst snd]. fold ts.
    rewrite resample_D_count_unfold. apply resample_D_count_days.
  - unfold daily_counts. rewrite !fmap_cons. cbn [fst snd]. fold ts.
    rewrite resample_D_count_unfold. cbv zeta. rewrite resample_D_count_days.
    apply NoDup_fmap_2_strong; [| apply NoDup_seqZ].
    intros a b _ _. apply day_label_inj.
  - unfold daily_counts. rewrite !fmap_cons. cbn [fst snd]. fold ts.
    rewrite resample_D_count_unfold. cbv zeta.
    rewrite length_fmap, length_seqZ. lia.
  - intros Hnotna. unfold daily_counts. rewrite Htotal. f_equal. f_equal.
    clear -Hnotna. induction Hnotna as [|r l Hr _ IH]; [done |].
    by rewrite filter_cons_True, IH.
Qed.

Lemma timeline_spans_first_to_last_event_day_witness :
  let rows := [(Sample.jan4_0100, PyStr "b"); (Sample.jan2_1030, PyStr "a")] in
  resample_D_count rows.*1 rows.*2
    = [(day_label 19724, 1); (day_label 19725, 0); (day_label 19726, 1)] ∧
  ∃ first last,
    (∃ r, r ∈ rows ∧ day_of r.1 = first) ∧
    (∃ r, r ∈ rows ∧ day_of r.1 = last) ∧
    (∀ r, r ∈ rows → first ≤ day_of r.1 ≤ last) ∧
    (resample_D_count rows.*1 rows.*2).*1
      = day_label <$> seqZ first (last - first + 1) ∧
    (∀ d, first ≤ d ≤ last → (∀ r, r ∈ rows → day_of r.1 ≠ d) →
          (day_label d, 0) ∈ resample_D_count rows.*1 rows.*2).
Proof.
  split; [vm_compute; reflexivity |].
  apply (timeline_spans_first_to_last_event_day
           [(Sample.jan4_0100, PyStr "b"); (Sample.jan2_1030, PyStr "a")]).
  discriminate.
Defined.

(** C4, as stated, fails: for the requested range 2024-01-01 to
    2024-01-03 and one flare on 2024-01-02, the timeline drawn has the
    single bucket of 2024-01-02; the first and the third day of the range
    have no bucket. *)
Lemma timeline_misses_requested_days :
  let upstream :=
    Sample.upstream 200 (PyList [Sample.flare "a" "2024-01-02T10:30Z" "M2.3"]) in
  let daily_counts := [(day_label 19724, 1)] in
  PlotlyChart (Line daily_counts)
    ∈ (run (main upstream Sample.value_counts Sample.to_datetime
                 Sample.jan1 Sample.jan3 true)).1 ∧
  requested_days Sample.jan1 Sample.jan3 = [19723; 19724; 19725] ∧
  ¬ covers_requested_range Sample.jan1 Sample.jan3 daily_counts.
Proof.
  split_and!.
  - apply list_elem_of_lookup. exists 17%nat. vm_compute. reflexivity.
  - vm_compute. reflexivity.
  - unfold covers_requested_range. vm_compute. discriminate.
Qed.

Lemma timeline_buckets_cover_days_and_count_identified_rows_witness :
  let rows := [(Sample.jan4_0100, PyStr "b"); (Sample.jan2_1030, PyNone);
               (Sample.jan2_1030, PyStr "a")] in
  let daily_counts := resample_D_count rows.*1 rows.*2 in
  daily_counts = [(day_label 19724, 1); (day_label 19725, 0); (day_label 19726, 1)] ∧
  ∃ earliest latest,
    earliest ∈ rows.*1 ∧ latest ∈ rows.*1 ∧
    (∀ t, t ∈ rows.*1 → earliest ≤ t ≤ latest) ∧
    daily_counts.*1
      = day_label <$> seqZ (day_of earliest) (day_of latest - day_of earliest + 1) ∧
    NoDup daily_counts.*1 ∧
    Z.of_nat (length daily_counts) = day_of latest - day_of earliest + 1 ∧
    total daily_counts.*2 = 2 ∧
    (Forall (λ r, isna r.2 = false) rows → total daily_counts.*2 = 3).
Proof.
  split; [vm_compute; reflexivity |].
  apply (timeline_buckets_cover_days_and_count_identified_rows
           [(Sample.jan4_0100, PyStr "b"); (Sample.jan2_1030, PyNone);
            (Sample.jan2_1030, PyStr "a")]).
  discriminate.
Defined.

(** C9, as stated, fails: of two flares on 2024-01-02, one with a null
    identifier, the page shows a total of 2 and draws a timeline whose
    single bucket counts 1. *)
Lemma timeline_does_not_count_null_identifier :
  let upstream :=
    Sample.upstream 200
      (PyList [Sample.anonymous_flare "2024-01-02T10:30Z" "M2.3";
               Sample.flare "a" "2024-01-02T10:30Z" "X1.0"]) in
  let rows := [(Sample.jan2_1030, PyNone); (Sample.jan2_1030, PyStr "a")] in
  let page := (run (main upstream Sample.value_counts Sample.to_datetime
                         Sample.jan1 Sample.jan3 true)).1 in
  Markdown "## Total Flares: 2" ∈ page ∧
  PlotlyChart (Line (resample_D_count rows.*1 rows.*2)) ∈ page ∧
  resample_D_count rows.*1 rows.*2 = [(day_label 19724, 1)] ∧
  ¬ counts_sum_to_row_count rows.
Proof.
  split_and!.
  - apply list_elem_of_lookup. exists 9%nat. vm_compute. reflexivity.
  - apply list_elem_of_lookup. exists 17%nat. vm_compute. reflexivity.
  - vm_compute. reflexivity.
  - unfold counts_sum_to_row_count. vm_compute. discriminate.
Qed.

Lemma invalid_range_runs_nothing_witness :
  run (main (Sample.upstream 200 (PyList [])) Sample.value_counts
            Sample.to_datetime Sample.jan3 Sample.jan1 true)
  = (page_header ++ [StError "Error: End date must be after start date."]
     ++ page_footer, Ok tt).
Proof.
  apply (invalid_range_runs_nothing (Sample.upstream 200 (PyList []))
           Sample.value_counts Sample.to_datetime Sample.jan3 Sample.jan1 true).
  reflexivity.
Defined.

Lemma fetch_returns_json_or_raises_status_witness :
  run (get_solar_flare_data (Sample.upstream 200 (PyList [])) Sample.jan1 Sample.jan3)
    = ([HttpGet (request_url Sample.jan1 Sample.jan3)], Ok (PyList [])) ∧
  run (get_solar_flare_data (Sample.upstream 503 PyNone) Sample.jan1 Sample.jan3)
    = ([HttpGet (request_url Sample.jan1 Sample.jan3)],
       Raise (Exception "API call failed with status code 503")) ∧
  run (main (Sample.upstream 503 PyNone) Sample.value_counts Sample.to_datetime
            Sample.jan1 Sample.jan3 true)
    = (page_header
       ++ [Button "Analyze Solar Flares";
           Spinner "Fetching and processing data...";
           HttpGet (request_url Sample.jan1 Sample.jan3)],
       Raise (Exception "API call failed with status code 503")).
Proof.
  split.
  - apply (proj1 (fetch_returns_json_or_raises_status
                    (Sample.upstream 200 (PyList [])) Sample.value_counts
                    Sample.to_datetime Sample.jan1 Sample.jan3
                    (mkResponse 200 (Ok (PyList []))) eq_refl)).
    reflexivity.
  - destruct (proj2 (fetch_returns_json_or_raises_status
                       (Sample.upstream 503 PyNone) Sample.value_counts
                       Sample.to_datetime Sample.jan1 Sample.jan3
                       (mkResponse 503 (Ok PyNone)) eq_refl)) as [Hfetch Hmain].
    + discriminate.
    + split; [exact Hfetch | apply Hmain; reflexivity].
Defined.

Lemma empty_array_raises_in_first_view_witness :
  run (main (Sample.upstream 200 (PyList [])) Sample.value_counts
            Sample.to_datetime Sample.jan1 Sample.jan3 true)
  = (page_header
     ++ [Button "Analyze Solar Flares";
         Spinner "Fetching and processing data...";
         HttpGet (request_url Sample.jan1 Sample.jan3);
         Markdown "## Total Flares: 0";
         Tabs ["Pie Chart"; "Flare Timeline"; "Advanced Analysis"];
         InTab 0;
         Markdown "This section provides an overview of the solar flare data and the distribution of their class types.";
         Subheader "Distribution of Flare Class Types"],
     Raise (KeyError "classType")).
Proof.
  apply (empty_array_raises_in_first_view (Sample.upstream 200 (PyList []))
           Sample.value_counts Sample.to_datetime Sample.jan1 Sample.jan3
           (mkResponse 200 (Ok (PyList [])))); reflexivity.
Defined.

(** * Further properties *)

(** ** Steps that only append *)

Lemma emits_only_ret P {A} (a : A) : emits_only P (mret a : ui A).
Proof. intros tr. exists []. by rewrite app_nil_r. Qed.

Lemma emits_only_lift P {A} (r : result A) : emits_only P (lift r).
Proof. intros tr. exists []. by rewrite app_nil_r. Qed.

Lemma emits_only_emit (P : event → Prop) e : P e → emits_only P (emit e).
Proof. intros He tr. exists [e]. split; [done | by constructor]. Qed.

Lemma emits_only_bind P {A B} (m : ui A) (k : A → ui B) :
  emits_only P m → (∀ a, emits_only P (k a)) → emits_only P (m ≫= k).
Proof.
  intros Hm Hk tr. destruct (Hm tr) as (extra & Htr & Hextra).
  unfold mbind, ui_bind. destruct (m tr) as [tr' [a|e]]; simpl in Htr; subst tr'.
  - destruct (Hk a (tr ++ extra)) as (extra' & Htr' & Hextra').
    exists (extra ++ extra'). rewrite Htr', app_assoc. split; [done |].
    by apply Forall_app.
  - by exists extra.
Qed.

Lemma emits_only_impl (P Q : event → Prop) {A} (m : ui A) :
  (∀ e, P e → Q e) → emits_only P m → emits_only Q m.
Proof.
  intros HPQ Hm tr. destruct (Hm tr) as (extra & Htr & Hextra).
  exists extra. split; [done |]. by eapply Forall_impl.
Qed.

Ltac emits_only_steps :=
  repeat (apply emits_only_bind; [| intros ?]);
  first [ apply emits_only_lift
        | apply emits_only_ret
        | apply emits_only_emit; reflexivity ].

Lemma pie_tab_emits value_counts df :
  emits_only (λ e, analysis_event e = true) (pie_tab value_counts df).
Proof. unfold pie_tab. emits_only_steps. Qed.

Lemma timeline_tab_emits to_datetime df :
  emits_only (λ e, analysis_event e = true) (timeline_tab to_datetime df).
Proof. unfold timeline_tab. emits_only_steps. Qed.

Lemma scatter_tab_emits df :
  emits_only (λ e, analysis_event e = true) (scatter_tab df).
Proof. unfold scatter_tab. emits_only_steps. Qed.

Lemma total_line_is_analysis_event n :
  analysis_event (Markdown ("## Total Flares: " +:+ n)) = true.
Proof. by destruct n. Qed.

Lemma analysis_emits value_counts to_datetime data :
  emits_only (λ e, analysis_event e = true) (analysis value_counts to_datetime data).
Proof.
  unfold analysis.
  apply emits_only_bind; [apply emits_only_lift | intros df].
  apply emits_only_bind;
    [apply emits_only_emit, total_line_is_analysis_event | intros _].
  apply emits_only_bind; [by apply emits_only_emit | intros _].
  apply emits_only_bind; [apply pie_tab_emits | intros df1].
  apply emits_only_bind; [apply timeline_tab_emits | intros df2].
  apply emits_only_bind; [apply scatter_tab_emits | intros df3].
  apply emits_only_ret.
Qed.

(** ** The run of the page, case by case *)

Lemma get_solar_flare_data_outcome requests_get start_date end_date tr :
  get_solar_flare_data requests_get start_date end_date tr
  = (tr ++ [HttpGet (request_url start_date end_date)],
     fetch_outcome requests_get start_date end_date).
Proof.
  unfold get_solar_flare_data, fetch_outcome, mbind, ui_bind, emit, lift.
  fold (request_url start_date end_date).
  destruct (requests_get (request_url start_date end_date)) as [r|e]; [| done].
  cbn [result_bind]. by destruct (status_code r =? 200).
Qed.

Lemma main_run requests_get value_counts to_datetime start_date end_date clicked :
  run (main requests_get value_counts to_datetime start_date end_date clicked)
  = if date_le start_date end_date then
      if clicked then
        match fetch_outcome requests_get start_date end_date with
        | Raise e => (page_at_fetch start_date end_date, Raise e)
        | Ok data =>
            match analysis value_counts to_datetime data
                    (page_at_fetch start_date end_date) with
            | (tr, Ok _) => (tr ++ page_footer, Ok tt)
            | (tr, Raise e) => (tr, Raise e)
            end
        end
      else (page_header ++ [Button "Analyze Solar Flares"] ++ page_footer, Ok tt)
    else (page_header ++ [StError "Error: End date must be after start date."]
          ++ page_footer, Ok tt).
Proof.
  unfold main, run. destruct (date_le start_date end_date); [| reflexivity].
  destruct clicked; [| reflexivity].
  unfold analysis, page_at_fetch.
  unfold mbind, ui_bind, mret, ui_ret, emit, lift, page_header, page_footer.
  cbv beta iota. cbn [app].
  rewrite get_solar_flare_data_outcome. cbn [app].
  destruct (fetch_outcome _ _ _) as [data|e]; [| reflexivity].
  destruct (process_data data) as [df|e]; [| reflexivity].
  destruct (pie_tab _ _ _) as [tr3 [df3|e3]]; [| reflexivity].
  destruct (timeline_tab _ _ _) as [tr4 [df4|e4]]; [| reflexivity].
  destruct (scatter_tab _ _) as [tr5 [df5|e5]]; [| reflexivity].
  by rewrite <- app_assoc.
Qed.

Lemma count_events_app p tr1 tr2 :
  count_events p (tr1 ++ tr2) = (count_events p tr1 + count_events p tr2)%nat.
Proof. unfold count_events. by rewrite List.filter_app, length_app. Qed.

Lemma count_events_none (p : event → bool) tr :
  Forall (λ e, p e = false) tr → count_events p tr = 0%nat.
Proof.
  unfold count_events. induction 1 as [|e tr He _ IH]; [done |].
  simpl. by rewrite He.
Qed.

Lemma analysis_trace value_counts to_datetime data tr :
  ∃ extra,
    (analysis value_counts to_datetime data tr).1 = tr ++ extra ∧
    Forall (λ e, analysis_event e = true) extra.
Proof. apply analysis_emits. Qed.

Lemma date_le_negb_gt (a b : date) : date_le a b = negb (date_gt a b).
Proof.
  unfold date_gt, date_le.
  destruct (year a =? year b) eqn:Hy.
  - destruct (month a =? month b) eqn:Hm; lia.
  - lia.
Qed.

Lemma date_le_refl (d : date) : date_le d d = true.
Proof. unfold date_le. rewrite !Z.eqb_refl. lia. Qed.

Lemma footer_not_in_analysis_trace tr extra :
  Forall (λ e, analysis_event e = true) extra →
  Forall (λ e, is_range_error e = false ∧ e ∉ page_footer) tr →
  ∀ body, tr ++ extra ≠ body ++ page_footer.
Proof.
  intros Hextra Htr body Heq.
  assert (Hin : Markdown "---" ∈ tr ++ extra).
  { rewrite Heq. apply elem_of_app. right. by left. }
  apply elem_of_app in Hin as [Hin | Hin].
  - eapply Forall_forall in Htr as [_ Hno]; [| exact Hin].
    apply Hno. by left.
  - eapply Forall_forall in Hextra; [| exact Hin]. discriminate.
Qed.

Lemma page_at_fetch_plain start_date end_date :
  Forall (λ e, is_range_error e = false ∧ e ∉ page_footer)
         (page_at_fetch start_date end_date).
Proof.
  unfold page_at_fetch, page_header, page_footer. cbn [app].
  repeat (constructor; [split; [reflexivity |] |]); try constructor;
    intros Hin;
    repeat (apply elem_of_cons in Hin as [Hin | Hin]; [discriminate |]);
    by apply elem_of_nil in Hin.
Qed.

(** ** The columns of the table *)

Lemma process_loop_Ok_inv flares acc out :
  process_loop flares acc = Ok out →
  ∃ rows, Forall2 (λ flare row, process_flare flare = Ok row) flares rows ∧
          out = acc ++ rows.
Proof.
  revert acc. induction flares as [|flare flares IH]; intros acc; simpl.
  - intros [= <-]. exists []. by rewrite app_nil_r.
  - intros H. apply bind_Ok_inv in H as (row & Hrow & H).
    apply IH in H as (rows & Hrows & ->).
    exists (row :: rows). split; [by constructor | by rewrite <- app_assoc].
Qed.

Lemma process_data_Ok_inv flares df :
  process_data (PyList flares) = Ok df →
  ∃ rows, Forall2 (λ flare row, process_flare flare = Ok row) flares rows ∧
          df = pd_DataFrame rows.
Proof.
  unfold process_data. cbn [py_iter mbind result_bind].
  destruct (process_loop flares []) as [rows|e] eqn:Hloop; [| discriminate].
  intros [= <-]. apply process_loop_Ok_inv in Hloop as (rows' & Hrows & ->).
  by exists rows'.
Qed.

Lemma assoc_tag {B} (g : string → B) (names : list string) key :
  key ∈ names → assoc key ((λ k, (k, g k)) <$> names) = Some (g key).
Proof.
  induction names as [|k names IH]; [by intros ?%elem_of_nil |].
  intros Hin. rewrite fmap_cons. cbn [assoc].
  destruct (String.eqb k key) eqn:E.
  - by apply String.eqb_eq in E as ->.
  - apply IH. apply elem_of_cons in Hin as [-> | Hin]; [| done].
    by rewrite String.eqb_refl in E.
Qed.

Lemma required_keys_in_row_keys key : key ∈ required_keys → key ∈ row_keys.
Proof.
  unfold required_keys, row_keys. intros Hin.
  repeat (apply elem_of_cons in Hin as [-> | Hin];
          [repeat first [apply list_elem_of_here | apply list_elem_of_further] |]).
  by apply elem_of_nil in Hin.
Qed.

Lemma process_flare_field flare row key :
  process_flare flare = Ok row → key ∈ required_keys →
  default PyNone (assoc key row) = field key flare.
Proof.
  intros Hrow Hin.
  apply process_flare_Ok_inv in Hrow as (m & le & ins & -> & _ & _ & _ & ->).
  unfold required_keys in Hin.
  repeat (apply elem_of_cons in Hin as [-> | Hin]; [reflexivity |]).
  by apply elem_of_nil in Hin.
Qed.

Lemma pd_DataFrame_getitem (rows : list record) key :
  rows ≠ [] → Forall (λ r, r.*1 = row_keys) rows → key ∈ row_keys →
  df_getitem (pd_DataFrame rows) key
  = Ok ((λ r, default PyNone (assoc key r)) <$> rows).
Proof.
  intros Hne Hkeys Hin. destruct rows as [|row rows]; [done |].
  pose proof (pd_DataFrame_columns rows row Hkeys) as Hcols.
  unfold df_getitem, pd_DataFrame in *. cbn [columns] in *.
  rewrite fmap_fst_tag in Hcols. rewrite Hcols.
  by rewrite (assoc_tag (λ k, (λ r, default PyNone (assoc k r)) <$> row :: rows)).
Qed.

Lemma process_data_getitem flares df key :
  process_data (PyList flares) = Ok df → flares ≠ [] → key ∈ required_keys →
  df_getitem df key = Ok (field key <$> flares).
Proof.
  intros Hdf Hne Hin.
  apply process_data_Ok_inv in Hdf as (rows & Hrows & ->).
  rewrite pd_DataFrame_getitem.
  - f_equal. clear Hne. induction Hrows as [|flare row flares rows Hrow _ IH]; [done |].
    rewrite !fmap_cons. f_equal; [| exact IH].
    by apply process_flare_field.
  - intros ->. apply Forall2_nil_inv_r in Hrows. done.
  - clear -Hrows. induction Hrows; constructor; eauto using process_flare_keys.
  - by apply required_keys_in_row_keys.
Qed.

Lemma process_data_nrows flares df :
  process_data (PyList flares) = Ok df → nrows df = length flares.
Proof.
  intros Hdf. apply process_data_Ok_inv in Hdf as (rows & Hrows & ->).
  rewrite pd_DataFrame_nrows. symmetry. by eapply Forall2_length.
Qed.

(** X7. When the transformation of a non-empty array succeeds, the table
    has the nine columns in the order of the dict literal and one row per
    record, and the column of each subscripted key has one cell per record
    in input order: a record's value that is a string is kept as it is, and
    a cell is NA exactly where the record's value is null.  (Numbers are
    left out: pandas stores them by the dtype of the column.) *)
Theorem process_data_passes_fields_through (flares : list pyval) (df : DataFrame) :
  process_data (PyList flares) = Ok df → flares ≠ [] →
  (columns df).*1 = row_keys ∧
  nrows df = length flares ∧
  ∀ key, key ∈ required_keys →
    ∃ cells,
      df_getitem df key = Ok cells ∧
      length cells = length flares ∧
      (∀ i flare s, flares !! i = Some flare → field key flare = PyStr s →
                    cells !! i = Some (PyStr s)) ∧
      (∀ i flare, flares !! i = Some flare →
                  ∃ cell, cells !! i = Some cell ∧
                          isna cell = isna (field key flare)).
Proof.
  intros Hdf Hne. split_and!.
  - apply process_data_Ok_inv in Hdf as (rows & Hrows & ->).
    destruct Hrows as [|flare row flares rows Hrow Hrows]; [done |].
    apply pd_DataFrame_columns. constructor; [by eapply process_flare_keys |].
    clear -Hrows. induction Hrows; constructor; eauto using process_flare_keys.
  - by apply process_data_nrows.
  - intros key Hin. exists (field key <$> flares). split_and!.
    + by apply process_data_getitem.
    + by rewrite length_fmap.
    + intros i flare s Hi Hs. by rewrite list_lookup_fmap, Hi, <- Hs.
    + intros i flare Hi. exists (field key flare).
      by rewrite list_lookup_fmap, Hi.
Qed.

(** ** The tabs, outcome by outcome *)

Ltac case_results :=
  repeat match goal with
         | |- context [match ?r with Ok _ => _ | Raise _ => _ end] =>
             let E := fresh "E" in destruct r eqn:E
         end.

Ltac run_tab :=
  unfold mbind, ui_bind, mret, ui_ret, emit, lift; cbv beta iota.

Lemma pie_tab_Ok_inv value_counts df tr tr' df' :
  pie_tab value_counts df tr = (tr', Ok df') →
  df' = df ∧
  ∃ class_counts,
    tr' = tr ++ [InTab 0;
                 Markdown "This section provides an overview of the solar flare data and the distribution of their class types.";
                 Subheader "Distribution of Flare Class Types";
                 PlotlyChart (Pie class_counts)].
Proof.
  unfold pie_tab. run_tab. case_results; intros [= <- <-].
  split; [done |]. eexists. by rewrite <- !app_assoc.
Qed.

Lemma timeline_tab_Ok_inv to_datetime df tr tr' df' :
  timeline_tab to_datetime df tr = (tr', Ok df') →
  ∃ daily_counts,
    tr' = tr ++ [InTab 1; Subheader "Number of Flares Over Time";
                 PlotlyChart (Line daily_counts)].
Proof.
  unfold timeline_tab. run_tab. case_results; intros [= <- <-].
  eexists. by rewrite <- !app_assoc.
Qed.

Lemma scatter_tab_Ok_inv df tr tr' df' :
  scatter_tab df tr = (tr', Ok df') →
  ∃ x y hover,
    tr' = tr ++ [InTab 2; Subheader "Solar Flare Intensity Over Time";
                 PlotlyChart (Scatter x y hover [0; 5; 10; 15; 20]
                                      ["A"; "B"; "C"; "M"; "X"] (-1, 24))].
Proof.
  unfold scatter_tab. run_tab. case_results; intros [= <- <-].
  do 3 eexists. by rewrite <- !app_assoc.
Qed.

Lemma analysis_Ok_inv value_counts to_datetime data tr tr' :
  analysis value_counts to_datetime data tr = (tr', Ok tt) →
  ∃ df class_counts daily_counts x y hover,
    process_data data = Ok df ∧
    tr' = tr ++ [Markdown ("## Total Flares: " +:+ pretty (df_len df));
                 Tabs ["Pie Chart"; "Flare Timeline"; "Advanced Analysis"];
                 InTab 0;
                 Markdown "This section provides an overview of the solar flare data and the distribution of their class types.";
                 Subheader "Distribution of Flare Class Types";
                 PlotlyChart (Pie class_counts);
                 InTab 1; Subheader "Number of Flares Over Time";
                 PlotlyChart (Line daily_counts);
                 InTab 2; Subheader "Solar Flare Intensity Over Time";
                 PlotlyChart (Scatter x y hover [0; 5; 10; 15; 20]
                                      ["A"; "B"; "C"; "M"; "X"] (-1, 24))].
Proof.
  unfold analysis. run_tab.
  destruct (process_data data) as [df|e]; [| discriminate].
  destruct (pie_tab _ _ _) as [tr1 [df1|e1]] eqn:Hpie; [| discriminate].
  destruct (timeline_tab _ _ _) as [tr2 [df2|e2]] eqn:Htime; [| discriminate].
  destruct (scatter_tab _ _) as [tr3 [df3|e3]] eqn:Hscatter; [| discriminate].
  intros [= <-].
  apply pie_tab_Ok_inv in Hpie as (-> & class_counts & ->).
  apply timeline_tab_Ok_inv in Htime as (daily_counts & ->).
  apply scatter_tab_Ok_inv in Hscatter as (x & y & hover & ->).
  exists df, class_counts, daily_counts, x, y, hover.
  split; [done |]. by rewrite <- !app_assoc.
Qed.

(** *** The tabs when every step succeeds *)

Lemma mapM_Ok_length {A B} (f : A → result B) l ys :
  mapM f l = Ok ys → length ys = length l.
Proof.
  revert ys. induction l as [|x l IH]; intros ys; simpl.
  - by intros [= <-].
  - intros H. apply bind_Ok_inv in H as (y & _ & H).
    apply bind_Ok_inv in H as (ys' & Hys' & [= <-]).
    simpl. f_equal. by apply IH.
Qed.

Lemma pie_tab_run value_counts df classType class_counts tr :
  df_getitem df "classType" = Ok classType →
  value_counts classType = Ok class_counts →
  pie_tab value_counts df tr
  = (tr ++ [InTab 0;
            Markdown "This section provides an overview of the solar flare data and the distribution of their class types.";
            Subheader "Distribution of Flare Class Types";
            PlotlyChart (Pie class_counts)],
     Ok df).
Proof.
  intros Hcol Hcounts. unfold pie_tab. run_tab.
  rewrite Hcol. cbv beta iota. rewrite Hcounts. cbv beta iota.
  by rewrite <- !app_assoc.
Qed.

Lemma timeline_tab_run_df to_datetime df beginTime flrID parsed tr :
  df_getitem df "beginTime" = Ok beginTime →
  df_getitem df "flrID" = Ok flrID →
  to_datetime beginTime = Ok parsed →
  length parsed = nrows df →
  timeline_tab to_datetime df tr
  = (tr ++ [InTab 1; Subheader "Number of Flares Over Time";
            PlotlyChart (Line (resample_D_count parsed flrID))],
     Ok {| nrows := nrows df;
           columns := set_col "beginTime" (PyTimestamp <$> parsed) (columns df) |}).
Proof.
  intros Hbegin Hid Hparsed Hlen.
  unfold timeline_tab, mbind, ui_bind, emit, lift. rewrite Hbegin.
  cbv beta iota. rewrite Hparsed. cbv beta iota.
  unfold df_setitem. rewrite length_fmap, bool_decide_eq_true_2 by done.
  cbv beta iota. unfold df_getitem in *. cbn [columns].
  rewrite assoc_set_col_eq. cbn [result_bind].
  rewrite mapM_as_timestamp. cbv beta iota.
  rewrite assoc_set_col_ne by done.
  destruct (assoc "flrID" (columns df)); [| discriminate].
  injection Hid as ->. cbv beta iota.
  by rewrite <- !app_assoc.
Qed.

Lemma scatter_tab_run df classType beginTime values tr :
  df_getitem df "classType" = Ok classType →
  df_getitem df "beginTime" = Ok beginTime →
  mapM intensity classType = Ok values →
  length classType = nrows df →
  ∃ df',
    scatter_tab df tr
    = (tr ++ [InTab 2; Subheader "Solar Flare Intensity Over Time";
              PlotlyChart (Scatter beginTime (PyInt <$> values) classType
                                   [0; 5; 10; 15; 20]
                                   ["A"; "B"; "C"; "M"; "X"] (-1, 24))],
       Ok df').
Proof.
  intros Hclass Hbegin Hvalues Hlen. eexists.
  unfold scatter_tab, mbind, ui_bind, mret, ui_ret, emit, lift.
  rewrite Hclass. cbv beta iota. rewrite Hvalues. cbv beta iota.
  unfold df_setitem.
  rewrite length_fmap, (mapM_Ok_length _ _ _ Hvalues), bool_decide_eq_true_2 by done.
  cbv beta iota. unfold df_getitem in *. cbn [columns].
  rewrite assoc_set_col_eq, !assoc_set_col_ne by done.
  destruct (assoc "beginTime" (columns df)); [| discriminate].
  injection Hbegin as ->.
  destruct (assoc "classType" (columns df)); [| discriminate].
  injection Hclass as ->. cbv beta iota.
  by rewrite <- !app_assoc.
Qed.

Section Runs.

Variable requests_get : string → result response.
Variable value_counts : list pyval → result (list (pyval * Z)).
Variable to_datetime : list pyval → result (list Z).

(** X1. The script sends one request when the range is valid and the
    button is pressed, and none otherwise, whatever the upstream answers
    and wherever the run stops. *)
Theorem one_request_per_pressed_run (start_date end_date : date) (clicked : bool) :
  count_events is_request
    (run (main requests_get value_counts to_datetime start_date end_date clicked)).1
  = if date_le start_date end_date && clicked then 1%nat else 0%nat.
Proof.
  rewrite main_run.
  destruct (date_le start_date end_date); [| reflexivity].
  destruct clicked; [| reflexivity]. simpl andb. cbv iota.
  assert (Hfetch : count_events is_request (page_at_fetch start_date end_date) = 1%nat)
    by reflexivity.
  destruct (fetch_outcome _ _ _) as [data|e]; [| exact Hfetch].
  destruct (analysis_trace value_counts to_datetime data
              (page_at_fetch start_date end_date)) as (extra & Htr & Hextra).
  assert (Hnone : count_events is_request extra = 0%nat).
  { apply count_events_none. eapply Forall_impl; [exact Hextra |].
    by intros []. }
  destruct (analysis _ _ _ _) as [tr [[]|e]]; simpl in Htr; subst tr; cbn [fst].
  - rewrite (count_events_app _ (page_at_fetch start_date end_date ++ extra)).
    rewrite (count_events_app _ (page_at_fetch start_date end_date) extra).
    rewrite Hfetch, Hnone. reflexivity.
  - rewrite (count_events_app _ (page_at_fetch start_date end_date) extra).
    by rewrite Hfetch, Hnone.
Qed.

(** X2. The range error is shown exactly when the start date is after the
    end date, and then once; a run with a valid range never shows it,
    however it ends. *)
Theorem range_error_iff_start_after_end (start_date end_date : date) (clicked : bool) :
  count_events is_range_error
    (run (main requests_get value_counts to_datetime start_date end_date clicked)).1
  = if date_gt start_date end_date then 1%nat else 0%nat.
Proof.
  rewrite main_run, date_le_negb_gt.
  destruct (date_gt start_date end_date); [reflexivity |]. cbn [negb].
  destruct clicked; [| reflexivity].
  assert (Hfetch : count_events is_range_error (page_at_fetch start_date end_date) = 0%nat)
    by reflexivity.
  destruct (fetch_outcome _ _ _) as [data|e]; [| exact Hfetch].
  destruct (analysis_trace value_counts to_datetime data
              (page_at_fetch start_date end_date)) as (extra & Htr & Hextra).
  assert (Hnone : count_events is_range_error extra = 0%nat).
  { apply count_events_none. eapply Forall_impl; [exact Hextra |].
    by intros []. }
  destruct (analysis _ _ _ _) as [tr [[]|e]]; simpl in Htr; subst tr; cbn [fst].
  - rewrite (count_events_app _ (page_at_fetch start_date end_date ++ extra)).
    rewrite (count_events_app _ (page_at_fetch start_date end_date) extra).
    rewrite Hfetch, Hnone. reflexivity.
  - rewrite (count_events_app _ (page_at_fetch start_date end_date) extra).
    by rewrite Hfetch, Hnone.
Qed.

(** X3. A range of a single day is accepted: with the start date equal to
    the end date a pressed run goes on to the request, sent with the same
    day as [startDate] and [endDate]. *)
Theorem single_day_range_is_fetched (d : date) :
  ∃ rest,
    (run (main requests_get value_counts to_datetime d d true)).1
    = page_header
      ++ [Button "Analyze Solar Flares";
          Spinner "Fetching and processing data...";
          HttpGet (flare_url (strftime_Ymd d) (strftime_Ymd d))]
      ++ rest.
Proof.
  rewrite main_run, date_le_refl.
  change (page_header ++ _ :: _ :: HttpGet _ :: ?rest)
    with (page_at_fetch d d ++ rest).
  destruct (fetch_outcome _ _ _) as [data|e].
  - destruct (analysis_trace value_counts to_datetime data (page_at_fetch d d))
      as (extra & Htr & _).
    destruct (analysis _ _ _ _) as [tr [[]|e]]; simpl in Htr; subst tr; cbn [fst].
    + exists (extra ++ page_footer). by rewrite app_assoc.
    + by exists extra.
  - exists []. by rewrite app_nil_r.
Qed.

(** X4. Every run starts with the header, and it ends with the footer
    exactly when no exception was raised: an exception anywhere in the
    fetch, the transformation or a tab leaves the page without footer. *)
Theorem footer_iff_no_exception (start_date end_date : date) (clicked : bool) :
  let outcome :=
    run (main requests_get value_counts to_datetime start_date end_date clicked) in
  (∃ rest, outcome.1 = page_header ++ rest) ∧
  (outcome.2 = Ok tt ↔ ∃ body, outcome.1 = body ++ page_footer).
Proof.
  intros outcome. unfold outcome. rewrite main_run.
  destruct (date_le start_date end_date); cycle 1.
  { split; [by eexists | split; [intros _ | done]].
    exists (page_header ++ [StError "Error: End date must be after start date."]).
    by rewrite <- app_assoc. }
  destruct clicked; cycle 1.
  { split; [by eexists | split; [intros _ | done]].
    exists (page_header ++ [Button "Analyze Solar Flares"]).
    by rewrite <- app_assoc. }
  pose proof (page_at_fetch_plain start_date end_date) as Hplain.
  destruct (fetch_outcome _ _ _) as [data|e].
  - destruct (analysis_trace value_counts to_datetime data
                (page_at_fetch start_date end_date)) as (extra & Htr & Hextra).
    destruct (analysis _ _ _ _) as [tr [[]|e]]; simpl in Htr; subst tr; cbn [fst snd].
    + split; [| split; [by eexists | done]].
      eexists. unfold page_at_fetch. by rewrite <- ?app_assoc.
    + split; [eexists; unfold page_at_fetch; by rewrite <- ?app_assoc |].
      split; [discriminate |]. intros [body Hbody]. exfalso.
      exact (footer_not_in_analysis_trace _ _ Hextra Hplain body Hbody).
  - cbn [fst snd]. split; [eexists; unfold page_at_fetch; by rewrite <- ?app_assoc |].
    split; [discriminate |]. intros [body Hbody]. exfalso.
    rewrite <- (app_nil_r (page_at_fetch _ _)) in Hbody.
    exact (footer_not_in_analysis_trace _ [] (Forall_nil_2 _) Hplain body Hbody).
Qed.

(** X5. A failure of the transport, or a body that does not decode
    although the status is 200, is not caught: the fetch raises that very
    exception after its single request, and a pressed run stops there. *)
Theorem fetch_failure_stops_at_request (start_date end_date : date) (err : pyerr) :
  requests_get (request_url start_date end_date) = Raise err ∨
  (∃ r, requests_get (request_url start_date end_date) = Ok r ∧
        status_code r = 200 ∧ json r = Raise err) →
  run (get_solar_flare_data requests_get start_date end_date)
    = ([HttpGet (request_url start_date end_date)], Raise err) ∧
  (date_le start_date end_date = true →
   run (main requests_get value_counts to_datetime start_date end_date true)
     = (page_at_fetch start_date end_date, Raise err)).
Proof.
  intros Hfail.
  assert (Hout : fetch_outcome requests_get start_date end_date = Raise err).
  { unfold fetch_outcome. destruct Hfail as [-> | (r & -> & H200 & Hjson)]; [done |].
    cbn [mbind result_bind]. by rewrite H200, Hjson. }
  split.
  - unfold run. by rewrite get_solar_flare_data_outcome, Hout.
  - intros Hle. by rewrite main_run, Hle, Hout.
Qed.

(** X6. When a pressed run with a valid range returns without exception,
    the page holds, in this order and nothing else: the header, the
    button, the spinner, the request, the total of the table, the tab bar,
    the pie chart, the line chart, the scatter chart with its fixed axis,
    and the footer. *)
Theorem successful_run_shape (start_date end_date : date) :
  date_le start_date end_date = true →
  (run (main requests_get value_counts to_datetime start_date end_date true)).2
    = Ok tt →
  ∃ data df class_counts daily_counts x y hover,
    fetch_outcome requests_get start_date end_date = Ok data ∧
    process_data data = Ok df ∧
    (run (main requests_get value_counts to_datetime start_date end_date true)).1
    = page_at_fetch start_date end_date
      ++ [Markdown ("## Total Flares: " +:+ pretty (df_len df));
          Tabs ["Pie Chart"; "Flare Timeline"; "Advanced Analysis"];
          InTab 0;
          Markdown "This section provides an overview of the solar flare data and the distribution of their class types.";
          Subheader "Distribution of Flare Class Types";
          PlotlyChart (Pie class_counts);
          InTab 1; Subheader "Number of Flares Over Time";
          PlotlyChart (Line daily_counts);
          InTab 2; Subheader "Solar Flare Intensity Over Time";
          PlotlyChart (Scatter x y hover [0; 5; 10; 15; 20]
                               ["A"; "B"; "C"; "M"; "X"] (-1, 24))]
      ++ page_footer.
Proof.
  intros Hle. rewrite main_run, Hle.
  destruct (fetch_outcome _ _ _) as [data|e]; [| discriminate].
  destruct (analysis _ _ _ _) as [tr [[]|e]] eqn:Hrun; [| discriminate].
  intros _. cbn [fst].
  apply analysis_Ok_inv in Hrun
    as (df & class_counts & daily_counts & x & y & hover & Hdf & ->).
  exists data, df, class_counts, daily_counts, x, y, hover.
  by rewrite <- app_assoc.
Qed.

(** X8. The whole analysis on a non-empty array: when the transformation,
    the class counts, the timestamp parser and the intensities all
    succeed, the run ends normally and draws the pie of the counts of the
    [classType] values, the line of the daily buckets of the parsed
    [beginTime] values counted by [flrID], and the scatter of the parsed
    [beginTime] values (the column the second tab rewrote) against the
    intensities, with the [classType] values on hover. *)
Theorem analysis_of_fetched_records (start_date end_date : date)
    (flares : list pyval) (df : DataFrame)
    (class_counts : list (pyval * Z)) (parsed values : list Z) :
  date_le start_date end_date = true →
  fetch_outcome requests_get start_date end_date = Ok (PyList flares) →
  flares ≠ [] →
  process_data (PyList flares) = Ok df →
  value_counts (field "classType" <$> flares) = Ok class_counts →
  to_datetime (field "beginTime" <$> flares) = Ok parsed →
  length parsed = length flares →
  mapM intensity (field "classType" <$> flares) = Ok values →
  run (main requests_get value_counts to_datetime start_date end_date true)
  = (page_at_fetch start_date end_date
     ++ [Markdown ("## Total Flares: " +:+ pretty (Z.of_nat (length flares)));
         Tabs ["Pie Chart"; "Flare Timeline"; "Advanced Analysis"];
         InTab 0;
         Markdown "This section provides an overview of the solar flare data and the distribution of their class types.";
         Subheader "Distribution of Flare Class Types";
         PlotlyChart (Pie class_counts);
         InTab 1; Subheader "Number of Flares Over Time";
         PlotlyChart (Line (resample_D_count parsed (field "flrID" <$> flares)));
         InTab 2; Subheader "Solar Flare Intensity Over Time";
         PlotlyChart (Scatter (PyTimestamp <$> parsed) (PyInt <$> values)
                              (field "classType" <$> flares)
                              [0; 5; 10; 15; 20]
                              ["A"; "B"; "C"; "M"; "X"] (-1, 24))]
     ++ page_footer,
     Ok tt).
Proof.
  intros Hle Hfetch Hne Hdf Hcounts Hparsed Hlen Hvalues.
  pose proof (process_data_nrows _ _ Hdf) as Hrows.
  assert (Hcol : ∀ key, key ∈ required_keys →
                        df_getitem df key = Ok (field key <$> flares))
    by (intros; by apply process_data_getitem).
  assert (Hclass := Hcol "classType" ltac:(unfold required_keys; set_solver)).
  assert (Hbegin := Hcol "beginTime" ltac:(unfold required_keys; set_solver)).
  assert (Hid := Hcol "flrID" ltac:(unfold required_keys; set_solver)).
  rewrite main_run, Hle, Hfetch.
  set (tr0 := page_at_fetch start_date end_date).
  set (df1 := {| nrows := nrows df;
                 columns := set_col "beginTime" (PyTimestamp <$> parsed) (columns df) |}).
  destruct (scatter_tab_run df1 (field "classType" <$> flares)
              (PyTimestamp <$> parsed) values
              ((tr0 ++ [Markdown ("## Total Flares: " +:+ pretty (df_len df));
                        Tabs ["Pie Chart"; "Flare Timeline"; "Advanced Analysis"]]
                    ++ [InTab 0;
                        Markdown "This section provides an overview of the solar flare data and the distribution of their class types.";
                        Subheader "Distribution of Flare Class Types";
                        PlotlyChart (Pie class_counts)])
               ++ [InTab 1; Subheader "Number of Flares Over Time";
                   PlotlyChart (Line (resample_D_count parsed (field "flrID" <$> flares)))]))
    as [df2 Hscatter].
  { unfold df_getitem, df1 in *. cbn [columns]. by rewrite assoc_set_col_ne. }
  { unfold df_getitem, df1. cbn [columns]. by rewrite assoc_set_col_eq. }
  { done. }
  { rewrite length_fmap. unfold df1. cbn [nrows]. by rewrite Hrows. }
  unfold analysis. unfold mbind at 1 2 3 4 5 6. unfold ui_bind at 1 2 3 4 5 6.
  unfold lift at 1. rewrite Hdf. cbv beta iota.
  unfold emit at 1 2. cbv beta iota.
  rewrite <- app_assoc. cbn [app].
  rewrite (pie_tab_run _ _ _ _ _ Hclass Hcounts).
  rewrite (timeline_tab_run_df _ _ _ _ _ _ Hbegin Hid Hparsed ltac:(by rewrite Hlen, Hrows)).
  fold df1.
  revert Hscatter. rewrite <- !app_assoc. cbn [app]. intros ->.
  unfold df_len. rewrite Hrows. cbv beta iota. unfold mret, ui_ret.
  unfold tr0. by rewrite <- !app_assoc.
Qed.

End Runs.

(** ** How the transformation fails *)

(** X9. A record that lacks several subscripted keys is reported by the
    first of them in the order of the dict literal: [KeyError] names the
    first missing key. *)
Theorem first_missing_key_is_reported (m : gmap string pyval)
    (before after : list string) (key : string) :
  required_keys = before ++ key :: after →
  (∀ k, k ∈ before → is_Some (m !! k)) →
  m !! key = None →
  process_flare (PyDict m) = Raise (KeyError key).
Proof.
  intros Heq Hbefore Hnone. unfold required_keys in Heq.
  unfold process_flare, py_getitem.
  do 7 (destruct before as [|? before]; simplify_eq/=;
        [ repeat match goal with
                 | |- context [m !! ?k] =>
                     first [ rewrite Hnone; reflexivity
                           | let H := fresh in
                             destruct (Hbefore k) as [? H];
                             [solve [repeat first [apply list_elem_of_here
                                                  | apply list_elem_of_further]]
                             | rewrite H; cbn [mbind result_bind] ] ]
                 end
        | ]).
  destruct before; simplify_eq/=.
Qed.

Lemma process_loop_first_failure good bad rest acc err :
  Forall (λ flare, ∃ row, process_flare flare = Ok row) good →
  process_flare bad = Raise err →
  process_loop (good ++ bad :: rest) acc = Raise err.
Proof.
  intros Hgood Hbad. revert acc.
  induction Hgood as [|flare good [row Hrow] _ IH]; intros acc; simpl.
  - by rewrite Hbad.
  - rewrite Hrow. cbn [mbind result_bind]. apply IH.
Qed.

(** X10. The transformation fails fast: it raises the exception of the
    first record it cannot process, whatever the records after it are,
    and returns no partial table. *)
Theorem process_data_raises_first_failure (good rest : list pyval) (bad : pyval)
    (err : pyerr) :
  Forall (λ flare, ∃ row, process_flare flare = Ok row) good →
  process_flare bad = Raise err →
  process_data (PyList (good ++ bad :: rest)) = Raise err.
Proof.
  intros Hgood Hbad. unfold process_data. cbn [py_iter mbind result_bind].
  by rewrite (process_loop_first_failure good bad rest [] err).
Qed.

Lemma process_loop_not_object s rest acc :
  process_loop (PyStr s :: rest) acc = Raise TypeError.
Proof. reflexivity. Qed.

(** X11. A body that is not an array never yields rows: [null], a
    boolean or a number is not iterable, and a non-empty string or object
    is iterated over its characters or keys, on which the first subscript
    raises; each gives [TypeError].  Only the empty string and the empty
    object pass, as the table without rows and columns. *)
Theorem process_data_of_non_array (data : pyval) :
  (∀ l, data ≠ PyList l) →
  process_data data
  = if empty_iterable data then Ok (pd_DataFrame []) else Raise TypeError.
Proof.
  intros Hnot. destruct data as [| b | z | f | s | l | m | ns]; try reflexivity.
  - by destruct s.
  - by destruct (Hnot l).
  - unfold process_data. cbn [py_iter mbind result_bind empty_iterable].
    destruct (map_to_list m) as [|[k v] kvs] eqn:Hm.
    + apply map_to_list_empty_iff in Hm as ->.
      by rewrite bool_decide_eq_true_2 by apply map_size_empty.
    + rewrite bool_decide_eq_false_2.
      * rewrite !fmap_cons. cbn [fst]. by rewrite process_loop_not_object.
      * intros ->%map_size_empty_iff. by rewrite map_to_list_empty in Hm.
Qed.

Lemma count_of_raises (m : gmap string pyval) key :
  raises (count_of (PyDict m) key) ↔
  ∃ v, m !! key = Some v ∧ unsized v = true.
Proof.
  unfold count_of. cbn [py_get mbind result_bind]. split.
  - intros Hraise. destruct (m !! key) as [v|] eqn:Hv.
    + exists v. split; [done |]. cbn [default] in Hraise. unfold py_or in Hraise.
      destruct v as [| [] | z | f | s | [|] | m' | ns]; cbn in Hraise |- *;
        try done; try (by apply not_raises_Ok in Hraise).
      * destruct (z =? 0); cbn in *; [by apply not_raises_Ok in Hraise | done].
      * destruct (float_is_zero f); cbn in *;
          [by apply not_raises_Ok in Hraise | done].
      * destruct (String.eqb s ""); cbn in *; by apply not_raises_Ok in Hraise.
      * destruct (bool_decide (size m' = 0%nat)); cbn in *;
          by apply not_raises_Ok in Hraise.
    + cbn in Hraise. by apply not_raises_Ok in Hraise.
  - intros (v & -> & Hv). cbn [default]. unfold py_or.
    destruct v as [| [] | z | f | s | l | m' | ns]; try discriminate;
      cbn in Hv |- *; try apply raises_Raise.
    + rewrite Hv. apply raises_Raise.
    + rewrite Hv. apply raises_Raise.
Qed.

Lemma process_flare_raises (m : gmap string pyval) :
  raises (process_flare (PyDict m)) ↔
  (∃ key, key ∈ required_keys ∧ m !! key = None) ∨
  (∃ key v, key ∈ list_keys ∧ m !! key = Some v ∧ unsized v = true).
Proof.
  split.
  - intros Hraise.
    destruct (has_keys required_keys m) eqn:Hreq;
      [| left; by apply has_keys_false].
    right. pose proof (proj1 (has_keys_spec _ _) Hreq) as Hkeys. clear Hreq.
    rename Hkeys into Hreq.
    destruct (count_of (PyDict m) "linkedEvents") as [le|e] eqn:Hle.
    + destruct (count_of (PyDict m) "instruments") as [ins|e] eqn:Hins.
      * rewrite (process_flare_Ok m le ins Hreq Hle Hins) in Hraise.
        by apply not_raises_Ok in Hraise.
      * destruct (proj1 (count_of_raises m "instruments")) as (v & Hv & Hu).
        { rewrite Hins. apply raises_Raise. }
        exists "instruments", v. split_and!; [| done | done].
        unfold list_keys. by right; left.
    + destruct (proj1 (count_of_raises m "linkedEvents")) as (v & Hv & Hu).
      { rewrite Hle. apply raises_Raise. }
      exists "linkedEvents", v. split_and!; [| done | done].
      unfold list_keys. by left.
  - intros [(key & Hkey & Hnone) | (key & v & Hkey & Hv & Hu)].
    + by eapply process_flare_missing.
    + destruct (raises_or_ok (process_flare (PyDict m))) as [|[row Hrow]]; [done |].
      apply process_flare_Ok_inv in Hrow as (m' & le & ins & [= <-] & _ & Hle & Hins & _).
      assert (Hraise : raises (count_of (PyDict m) key))
        by (apply count_of_raises; eauto).
      unfold list_keys in Hkey.
      apply elem_of_cons in Hkey as [-> | Hkey].
      { rewrite Hle in Hraise. by apply not_raises_Ok in Hraise. }
      apply list_elem_of_singleton in Hkey as ->.
      rewrite Hins in Hraise. by apply not_raises_Ok in Hraise.
Qed.

Lemma count_of_falsy (m : gmap string pyval) key v :
  m !! key = Some v → py_truthy v = false → count_of (PyDict m) key = Ok 0.
Proof.
  intros Hv Hf. unfold count_of. cbn [py_get mbind result_bind].
  rewrite Hv. cbn [default]. unfold py_or, id. by rewrite Hf.
Qed.

Lemma count_of_string (m : gmap string pyval) key s :
  m !! key = Some (PyStr s) →
  count_of (PyDict m) key = Ok (Z.of_nat (String.length s)).
Proof.
  intros Hv. unfold count_of. cbn [py_get mbind result_bind].
  rewrite Hv. cbn [default]. unfold py_or, id. by destruct s.
Qed.

Lemma count_of_object (m o : gmap string pyval) key :
  m !! key = Some (PyDict o) →
  count_of (PyDict m) key = Ok (Z.of_nat (size o)).
Proof.
  intros Hv. unfold count_of. cbn [py_get mbind result_bind].
  rewrite Hv. cbn [default]. unfold py_or, id. cbn [py_truthy].
  destruct (bool_decide (size o = 0%nat)) eqn:E; [| reflexivity].
  apply bool_decide_eq_true_1 in E. cbn. by rewrite E.
Qed.

(** X12. When an array of objects makes the transformation fail, with no
    assumption on the field types: exactly when some record lacks one of
    the seven subscripted keys, or holds under [linkedEvents] or
    [instruments] a value that is true but has no length ([true] or a
    non-zero number).  Every other value there is accepted and counted:
    a string, a list or an object counts its length, and every false
    value ([null], [false], zero, the empty string, list or object)
    counts 0. *)
Theorem process_data_fails_exactly_when (records : list (gmap string pyval)) :
  (raises (process_data (PyList (PyDict <$> records))) ↔
   ∃ m, m ∈ records ∧
        ((∃ key, key ∈ required_keys ∧ m !! key = None) ∨
         (∃ key v, key ∈ list_keys ∧ m !! key = Some v ∧ unsized v = true))) ∧
  (∀ (m : gmap string pyval) key,
     (∀ s, m !! key = Some (PyStr s) →
           count_of (PyDict m) key = Ok (Z.of_nat (String.length s))) ∧
     (∀ l, m !! key = Some (PyList l) →
           count_of (PyDict m) key = Ok (Z.of_nat (length l))) ∧
     (∀ o, m !! key = Some (PyDict o) →
           count_of (PyDict m) key = Ok (Z.of_nat (size o))) ∧
     (∀ v, m !! key = Some v → py_truthy v = false →
           count_of (PyDict m) key = Ok 0)).
Proof.
  split.
  - rewrite process_data_raises. split.
    + intros (flare & Hin & Hraise).
      apply list_elem_of_fmap in Hin as (m & -> & Hm).
      exists m. split; [done |]. by apply process_flare_raises.
    + intros (m & Hm & Hwhy). exists (PyDict m).
      split; [by apply list_elem_of_fmap_2 |]. by apply process_flare_raises.
  - intros m key. split_and!.
    + intros s. apply count_of_string.
    + intros l. apply count_of_list.
    + intros o. apply count_of_object.
    + intros v. apply count_of_falsy.
Qed.

(** ** More on the daily buckets *)

Lemma count_on_rows d (rows : list (Z * pyval)) :
  count_on d rows.*1 rows.*2
  = Z.of_nat (length (filter (λ tv, day_of tv.1 = d ∧ isna tv.2 = false) rows)).
Proof. unfold count_on. by rewrite zip_fst_snd. Qed.

Lemma foldr_min_unique t ts u us :
  (∀ x, x ∈ t :: ts ↔ x ∈ u :: us) → foldr Z.min t ts = foldr Z.min u us.
Proof.
  intros Hsame. apply Z.le_antisymm.
  - apply foldr_min_le, Hsame, foldr_min_elem.
  - apply foldr_min_le, Hsame, foldr_min_elem.
Qed.

Lemma foldr_max_unique t ts u us :
  (∀ x, x ∈ t :: ts ↔ x ∈ u :: us) → foldr Z.max t ts = foldr Z.max u us.
Proof.
  intros Hsame. apply Z.le_antisymm.
  - apply foldr_max_ge, Hsame, foldr_max_elem.
  - apply foldr_max_ge, Hsame, foldr_max_elem.
Qed.

(** X13. The timeline does not depend on the order in which the rows
    come: two row sequences that are permutations of each other give the
    same buckets with the same counts. *)
Theorem timeline_ignores_row_order (rows rows' : list (Z * pyval)) :
  rows ≡ₚ rows' →
  resample_D_count rows.*1 rows.*2 = resample_D_count rows'.*1 rows'.*2.
Proof.
  intros Hperm.
  destruct rows as [|[t v] rows].
  { apply Permutation_nil_l in Hperm as <-. reflexivity. }
  destruct rows' as [|[t' v'] rows'].
  { symmetry in Hperm. by apply Permutation_nil_l in Hperm. }
  assert (Hsame : ∀ x, x ∈ t :: rows.*1 ↔ x ∈ t' :: rows'.*1).
  { intros x. change (t :: rows.*1) with (((t, v) :: rows).*1).
    change (t' :: rows'.*1) with (((t', v') :: rows').*1).
    by rewrite Hperm. }
  assert (Hcount : ∀ d, count_on d ((t, v) :: rows).*1 ((t, v) :: rows).*2
                        = count_on d ((t', v') :: rows').*1 ((t', v') :: rows').*2).
  { intros d. rewrite !count_on_rows. f_equal.
    apply Permutation_length. by rewrite Hperm. }
  rewrite !fmap_cons in *. cbn [fst snd] in *.
  rewrite !resample_D_count_unfold. cbv zeta.
  rewrite (foldr_min_unique _ _ _ _ Hsame), (foldr_max_unique _ _ _ _ Hsame).
  apply list_fmap_ext. intros _ d _. f_equal. apply Hcount.
Qed.

(** X14. For a non-empty sequence of rows that each carry a parsed begin
    time: the day of every row has a bucket, whether or not the row has an
    identifier, so a row with a null [flrID] still extends the span of
    days; the bucket counts the rows of that day whose [flrID] is not
    null, hence at least 1 when the row has an identifier, and a day all of
    whose rows lack one counts 0. *)
Theorem timeline_counts_rows_with_identifier (rows : list (Z * pyval)) :
  rows ≠ [] →
  let daily_counts := resample_D_count rows.*1 rows.*2 in
  (∀ r, r ∈ rows →
        ∃ n, (day_label (day_of r.1), n) ∈ daily_counts ∧
             n = Z.of_nat (length (filter (λ q, day_of q.1 = day_of r.1 ∧
                                                isna q.2 = false) rows)) ∧
             (isna r.2 = false → 1 ≤ n)) ∧
  (∀ d n, (day_label d, n) ∈ daily_counts →
          (∀ q, q ∈ rows → day_of q.1 = d → isna q.2 = true) → n = 0).
Proof.
  destruct rows as [|[t v] rows]; [done |]. intros _ daily_counts.
  set (all := (t, v) :: rows) in *.
  set (ts := rows.*1).
  assert (Hin : Forall (λ r, day_of r.1 ∈
                   seqZ (day_of (foldr Z.min t ts))
                        (day_of (foldr Z.max t ts) - day_of (foldr Z.min t ts) + 1)) all).
  { apply Forall_forall. intros r Hr. apply elem_of_seqZ.
    assert (Hr1 : r.1 ∈ t :: ts).
    { change (t :: ts) with (all.*1). by apply list_elem_of_fmap_2. }
    pose proof (day_of_mono _ _ (foldr_min_le t ts _ Hr1)).
    pose proof (day_of_mono _ _ (foldr_max_ge t ts _ Hr1)). lia. }
  assert (Hout : daily_counts
                 = (λ d, (day_label d, count_on d all.*1 all.*2))
                     <$> seqZ (day_of (foldr Z.min t ts))
                              (day_of (foldr Z.max t ts) - day_of (foldr Z.min t ts) + 1)).
  { unfold daily_counts, all. rewrite !fmap_cons. cbn [fst snd]. fold ts.
    by rewrite resample_D_count_unfold. }
  rewrite Hout. split.
  - intros r Hr. exists (count_on (day_of r.1) all.*1 all.*2). split_and!.
    + apply list_elem_of_fmap. exists (day_of r.1). split; [done |].
      eapply Forall_forall in Hin; [exact Hin | done].
    + apply count_on_rows.
    + intros Hid. rewrite count_on_rows.
      assert (Hfil : r ∈ filter (λ tv, day_of tv.1 = day_of r.1 ∧ isna tv.2 = false) all)
        by (apply list_elem_of_filter; split; [split |]; done).
      destruct (filter _ all); [by apply elem_of_nil in Hfil | simpl; lia].
  - intros d n Hdn Hnull.
    apply list_elem_of_fmap in Hdn as (d' & [= Hd ->] & _).
    apply day_label_inj in Hd as <-.
    change (count_on d all.*1 all.*2 = 0). rewrite count_on_rows.
    destruct (filter _ all) as [|q l] eqn:Hfil; [done |].
    assert (Hq : q ∈ filter (λ tv, day_of tv.1 = d ∧ isna tv.2 = false) all)
      by (rewrite Hfil; by left).
    apply list_elem_of_filter in Hq as [[Hday Hid] Hq].
    rewrite (Hnull q Hq Hday) in Hid. discriminate.
Qed.

(** ** More on the intensity *)

Lemma code_point_inj c c' : Z.of_N (N_of_ascii c) = Z.of_N (N_of_ascii c') → c = c'.
Proof.
  intros H. apply N2Z.inj in H.
  rewrite <- (ascii_N_embedding c), <- (ascii_N_embedding c'). by rewrite H.
Qed.

(** X15. The intensity of a class designation depends on its first
    character only and tells first characters apart: it is that
    character's code point less 65, and it lies in the band 0..23 that the
    comment names (within the plotted range from -1 to 24) exactly for the
    first characters from A to X. *)
Theorem intensity_by_first_character (c c' : ascii) (rest rest' : string) :
  (intensity (PyStr (String c rest)) = intensity (PyStr (String c' rest')) ↔ c = c') ∧
  ∃ n, intensity (PyStr (String c rest)) = Ok n ∧
       n = Z.of_N (N_of_ascii c) - Z.of_N (N_of_ascii "A") ∧
       (0 ≤ n ≤ 23 ↔
        Z.of_N (N_of_ascii "A") ≤ Z.of_N (N_of_ascii c) ≤ Z.of_N (N_of_ascii "X")).
Proof.
  rewrite !intensity_first_char. split.
  - split; [| by intros ->]. intros [= H]. apply code_point_inj. lia.
  - eexists. split; [reflexivity |].
    change (Z.of_N (N_of_ascii "A")) with 65.
    change (Z.of_N (N_of_ascii "X")) with 88. lia.
Qed.

(** X16. On which cells the intensity is defined: on a non-empty string,
    and on a list whose first element is a one-character string; every
    other cell (null, a number, a boolean, an object, the empty string,
    any other list) raises. *)
Theorem intensity_defined_iff (x : pyval) :
  (∃ n, intensity x = Ok n) ↔
  (∃ c rest, x = PyStr (String c rest)) ∨
  (∃ c rest, x = PyList (PyStr (String c EmptyString) :: rest)).
Proof.
  split.
  - intros [n Hn]. unfold intensity in Hn.
    destruct x as [| b | z | f | s | l | m | ns]; try discriminate.
    + destruct s as [|c rest]; [discriminate |]. left. eauto.
    + destruct l as [|y rest]; [discriminate |]. right.
      cbn [py_getitem0 mbind result_bind] in Hn.
      destruct y as [| | | | s | | |]; try discriminate.
      destruct s as [|c [|c2 s]]; try discriminate. eauto.
  - intros [(c & rest & ->) | (c & rest & ->)]; eexists; reflexivity.
Qed.

(** ** The request *)

Lemma digit_mod a b : digit a = digit b → a mod 10 = b mod 10.
Proof.
  unfold digit. intros H. apply (f_equal N_of_ascii) in H.
  pose proof (Z.mod_pos_bound a 10 ltac:(lia)).
  pose proof (Z.mod_pos_bound b 10 ltac:(lia)).
  rewrite !N_ascii_embedding in H by lia. lia.
Qed.

Lemma digits2_inj a b :
  0 ≤ a < 100 → 0 ≤ b < 100 → digits2 a = digits2 b → a = b.
Proof.
  intros Ha Hb [= H1%digit_mod H0%digit_mod].
  Z.to_euclidean_division_equations. lia.
Qed.

Lemma digits4_inj a b :
  0 ≤ a < 10000 → 0 ≤ b < 10000 → digits4 a = digits4 b → a = b.
Proof.
  intros Ha Hb [= H3%digit_mod H2%digit_mod H1%digit_mod H0%digit_mod].
  Z.to_euclidean_division_equations. lia.
Qed.

Lemma printable_date_bounds d :
  printable_date d = true →
  0 ≤ year d < 10000 ∧ 0 ≤ month d < 100 ∧ 0 ≤ day d < 100.
Proof. unfold printable_date. lia. Qed.

Lemma strftime_Ymd_inj a b :
  printable_date a = true → printable_date b = true →
  strftime_Ymd a = strftime_Ymd b → a = b.
Proof.
  intros (By & Bm & Bd)%printable_date_bounds (By' & Bm' & Bd')%printable_date_bounds.
  destruct a as [y m d], b as [y' m' d']. cbn [year month day] in *.
  unfold strftime_Ymd. cbn [year month day]. intros Heq.
  assert (digits4 y = digits4 y' ∧ digits2 m = digits2 m' ∧ digits2 d = digits2 d')
    as (Hy & Hm & Hd).
  { unfold digits4, digits2 in *. cbn [String.append] in Heq.
    injection Heq as E1 E2 E3 E4 E5 E6 E7 E8.
    by rewrite E1, E2, E3, E4, E5, E6, E7, E8. }
  f_equal; [by apply digits4_inj | by apply digits2_inj | by apply digits2_inj].
Qed.

Lemma strftime_Ymd_length d : String.length (strftime_Ymd d) = 10%nat.
Proof. reflexivity. Qed.

Lemma append_inj_prefix (p s t : string) : p +:+ s = p +:+ t → s = t.
Proof. induction p as [|c p IH]; [done |]. intros [= H]. by apply IH. Qed.

Lemma append_inj_length (s s' t t' : string) :
  String.length s = String.length s' → s +:+ t = s' +:+ t' → s = s' ∧ t = t'.
Proof.
  revert s'. induction s as [|c s IH]; intros [|c' s'] Hlen; try discriminate.
  - done.
  - intros [= -> H]. injection Hlen as Hlen.
    destruct (IH s' Hlen H) as [-> ->]. done.
Qed.

(** X17. The request names its range without loss: for dates with a
    four-digit year (1000 to 9999) two requests have the same URL only if
    they have the same start date and the same end date. *)
Theorem request_url_determines_range (start_date end_date start_date' end_date' : date) :
  printable_date start_date = true → printable_date end_date = true →
  printable_date start_date' = true → printable_date end_date' = true →
  request_url start_date end_date = request_url start_date' end_date' →
  start_date = start_date' ∧ end_date = end_date'.
Proof.
  intros Hs He Hs' He'. unfold request_url, flare_url. intros H.
  apply append_inj_prefix in H.
  apply append_inj_length in H as [Hstart H];
    [| by rewrite !strftime_Ymd_length].
  apply append_inj_prefix in H.
  split; by apply strftime_Ymd_inj.
Qed.

(** ** The further properties on the sample upstream *)

Lemma footer_iff_no_exception_witness :
  ∃ body,
    (run (main (Sample.upstream 200 (PyList Sample.two_flares)) Sample.value_counts
               Sample.to_datetime Sample.jan1 Sample.jan3 true)).1
    = body ++ page_footer.
Proof.
  apply (proj2 (footer_iff_no_exception
                  (Sample.upstream 200 (PyList Sample.two_flares))
                  Sample.value_counts Sample.to_datetime
                  Sample.jan1 Sample.jan3 true)).
  vm_compute. reflexivity.
Defined.

Lemma fetch_failure_stops_at_request_witness :
  run (get_solar_flare_data Sample.unreachable Sample.jan1 Sample.jan3)
    = ([HttpGet (request_url Sample.jan1 Sample.jan3)],
       Raise (Exception "connection refused")) ∧
  run (main Sample.unreachable Sample.value_counts Sample.to_datetime
            Sample.jan1 Sample.jan3 true)
    = (page_at_fetch Sample.jan1 Sample.jan3, Raise (Exception "connection refused")).
Proof.
  destruct (fetch_failure_stops_at_request Sample.unreachable Sample.value_counts
              Sample.to_datetime Sample.jan1 Sample.jan3
              (Exception "connection refused")) as [Hfetch Hmain].
  - left. reflexivity.
  - split; [exact Hfetch | apply Hmain; reflexivity].
Defined.

Lemma successful_run_shape_witness :
  ∃ data df class_counts daily_counts x y hover,
    fetch_outcome (Sample.upstream 200 (PyList Sample.two_flares))
                  Sample.jan1 Sample.jan3 = Ok data ∧
    process_data data = Ok df ∧
    (run (main (Sample.upstream 200 (PyList Sample.two_flares)) Sample.value_counts
               Sample.to_datetime Sample.jan1 Sample.jan3 true)).1
    = page_at_fetch Sample.jan1 Sample.jan3
      ++ [Markdown ("## Total Flares: " +:+ pretty (df_len df));
          Tabs ["Pie Chart"; "Flare Timeline"; "Advanced Analysis"];
          InTab 0;
          Markdown "This section provides an overview of the solar flare data and the distribution of their class types.";
          Subheader "Distribution of Flare Class Types";
          PlotlyChart (Pie class_counts);
          InTab 1; Subheader "Number of Flares Over Time";
          PlotlyChart (Line daily_counts);
          InTab 2; Subheader "Solar Flare Intensity Over Time";
          PlotlyChart (Scatter x y hover [0; 5; 10; 15; 20]
                               ["A"; "B"; "C"; "M"; "X"] (-1, 24))]
      ++ page_footer.
Proof.
  apply (successful_run_shape (Sample.upstream 200 (PyList Sample.two_flares))
           Sample.value_counts Sample.to_datetime Sample.jan1 Sample.jan3).
  - reflexivity.
  - vm_compute. reflexivity.
Defined.

Lemma process_data_passes_fields_through_witness :
  ∃ df, process_data (PyList Sample.two_flares) = Ok df ∧
        (columns df).*1 = row_keys ∧
        nrows df = 2%nat ∧
        ∃ cells, df_getitem df "classType" = Ok cells ∧
                 cells !! 1%nat = Some (PyStr "X1.0").
Proof.
  destruct (process_data (PyList Sample.two_flares)) as [df|e] eqn:Hdf;
    [| vm_compute in Hdf; discriminate].
  exists df. split; [reflexivity |].
  destruct (process_data_passes_fields_through Sample.two_flares df Hdf)
    as (Hcols & Hrows & Hget); [discriminate |].
  split_and!; [exact Hcols | exact Hrows |].
  destruct (Hget "classType") as (cells & Hcells & _ & Hstr & _).
  { unfold required_keys. repeat constructor. }
  exists cells. split; [exact Hcells |].
  apply (Hstr 1%nat (Sample.flare "b" "2024-01-02T00:00Z" "X1.0"));
    vm_compute; reflexivity.
Defined.

Lemma analysis_of_fetched_records_witness :
  run (main (Sample.upstream 200 (PyList Sample.two_flares)) Sample.value_counts
            Sample.to_datetime Sample.jan1 Sample.jan3 true)
  = (page_at_fetch Sample.jan1 Sample.jan3
     ++ [Markdown "## Total Flares: 2";
         Tabs ["Pie Chart"; "Flare Timeline"; "Advanced Analysis"];
         InTab 0;
         Markdown "This section provides an overview of the solar flare data and the distribution of their class types.";
         Subheader "Distribution of Flare Class Types";
         PlotlyChart (Pie [(PyStr "M2.3", 1); (PyStr "X1.0", 1)]);
         InTab 1; Subheader "Number of Flares Over Time";
         PlotlyChart (Line (resample_D_count [day_label 19723; day_label 19724]
                                             [PyStr "a"; PyStr "b"]));
         InTab 2; Subheader "Solar Flare Intensity Over Time";
         PlotlyChart (Scatter [PyTimestamp (day_label 19723); PyTimestamp (day_label 19724)]
                              [PyInt 12; PyInt 23]
                              [PyStr "M2.3"; PyStr "X1.0"]
                              [0; 5; 10; 15; 20]
                              ["A"; "B"; "C"; "M"; "X"] (-1, 24))]
     ++ page_footer,
     Ok tt).
Proof.
  destruct (process_data (PyList Sample.two_flares)) as [df|e] eqn:Hdf;
    [| vm_compute in Hdf; discriminate].
  apply (analysis_of_fetched_records
           (Sample.upstream 200 (PyList Sample.two_flares))
           Sample.value_counts Sample.to_datetime Sample.jan1 Sample.jan3
           Sample.two_flares df
           [(PyStr "M2.3", 1); (PyStr "X1.0", 1)]
           [day_label 19723; day_label 19724] [12; 23]);
    first [exact Hdf | discriminate | vm_compute; reflexivity].
Defined.

Lemma first_missing_key_is_reported_witness :
  process_flare (PyDict Sample.bare_flare) = Raise (KeyError "sourceLocation").
Proof.
  apply (first_missing_key_is_reported Sample.bare_flare
           ["flrID"; "beginTime"; "peakTime"; "endTime"; "classType"]
           ["activeRegionNum"]).
  - reflexivity.
  - intros k Hk.
    repeat (apply elem_of_cons in Hk as [-> | Hk]; [vm_compute; eauto |]).
    by apply elem_of_nil in Hk.
  - vm_compute. reflexivity.
Defined.

Lemma process_data_raises_first_failure_witness :
  process_data (PyList ([PyDict Sample.plain_flare]
                        ++ PyDict Sample.bare_flare :: [PyNone]))
  = Raise (KeyError "sourceLocation").
Proof.
  apply (process_data_raises_first_failure [PyDict Sample.plain_flare] [PyNone]).
  - constructor; [| constructor]. eexists. vm_compute. reflexivity.
  - vm_compute. reflexivity.
Defined.

Lemma process_data_of_non_array_witness :
  process_data (PyDict (<["error" := PyStr "rate limit"]> ∅)) = Raise TypeError ∧
  process_data PyNone = Raise TypeError ∧
  process_data (PyDict ∅) = Ok (pd_DataFrame []).
Proof.
  split_and!.
  - etrans; [apply process_data_of_non_array; discriminate |].
    vm_compute. reflexivity.
  - apply (process_data_of_non_array PyNone). discriminate.
  - etrans; [apply process_data_of_non_array; discriminate |].
    vm_compute. reflexivity.
Defined.

Lemma process_data_fails_exactly_when_witness :
  raises (process_data
            (PyList (PyDict <$> [<["linkedEvents" := PyInt 3]> Sample.plain_flare]))) ∧
  count_of (PyDict (<["linkedEvents" := PyStr "GST"]> Sample.plain_flare))
           "linkedEvents" = Ok 3 ∧
  count_of (PyDict (<["linkedEvents" := PyBool false]> Sample.plain_flare))
           "linkedEvents" = Ok 0.
Proof.
  split_and!.
  - apply (proj2 (proj1 (process_data_fails_exactly_when
                    [<["linkedEvents" := PyInt 3]> Sample.plain_flare]))).
    eexists. split; [by left |]. right. exists "linkedEvents", (PyInt 3).
    split_and!; [by left | vm_compute; reflexivity | reflexivity].
  - destruct (proj2 (process_data_fails_exactly_when [])
                (<["linkedEvents" := PyStr "GST"]> Sample.plain_flare)
                "linkedEvents") as (Hstr & _).
    apply (Hstr "GST"). vm_compute. reflexivity.
  - destruct (proj2 (process_data_fails_exactly_when [])
                (<["linkedEvents" := PyBool false]> Sample.plain_flare)
                "linkedEvents") as (_ & _ & _ & Hfalse).
    apply (Hfalse (PyBool false)); [vm_compute; reflexivity | reflexivity].
Defined.

Lemma timeline_ignores_row_order_witness :
  resample_D_count [Sample.jan4_0100; Sample.jan2_1030] [PyStr "b"; PyStr "a"]
  = resample_D_count [Sample.jan2_1030; Sample.jan4_0100] [PyStr "a"; PyStr "b"].
Proof.
  apply (timeline_ignores_row_order
           [(Sample.jan4_0100, PyStr "b"); (Sample.jan2_1030, PyStr "a")]
           [(Sample.jan2_1030, PyStr "a"); (Sample.jan4_0100, PyStr "b")]).
  apply perm_swap.
Defined.

Lemma timeline_counts_rows_with_identifier_witness :
  let rows := [(Sample.jan4_0100, PyNone); (Sample.jan2_1030, PyStr "a")] in
  resample_D_count rows.*1 rows.*2
    = [(day_label 19724, 1); (day_label 19725, 0); (day_label 19726, 0)] ∧
  (∃ n, (day_label 19724, n) ∈ resample_D_count rows.*1 rows.*2 ∧ 1 ≤ n) ∧
  (∃ n, (day_label 19726, n) ∈ resample_D_count rows.*1 rows.*2) ∧
  ∀ n, (day_label 19726, n) ∈ resample_D_count rows.*1 rows.*2 → n = 0.
Proof.
  intros rows.
  destruct (timeline_counts_rows_with_identifier rows) as [Hrow Hnull];
    [discriminate |].
  split_and!.
  - vm_compute. reflexivity.
  - destruct (Hrow (Sample.jan2_1030, PyStr "a")) as (n & Hn & _ & Hpos);
      [right; left |].
    exists n. split; [exact Hn | by apply Hpos].
  - destruct (Hrow (Sample.jan4_0100, PyNone)) as (n & Hn & _); [left |].
    by exists n.
  - intros n Hn. apply (Hnull 19726 n Hn).
    intros q Hq Hday.
    apply elem_of_cons in Hq as [-> | Hq]; [reflexivity |].
    apply list_elem_of_singleton in Hq as ->.
    vm_compute in Hday. discriminate.
Defined.

Lemma intensity_by_first_character_witness :
  intensity (PyStr "M2.3") = intensity (PyStr "M9.9").
Proof.
  apply (proj2 (proj1 (intensity_by_first_character "M" "M" "2.3" "9.9"))).
  reflexivity.
Defined.

Lemma intensity_defined_iff_witness :
  (∃ n, intensity (PyStr "C4.1") = Ok n) ∧
  ¬ (∃ n, intensity PyNone = Ok n).
Proof.
  split.
  - apply (proj2 (intensity_defined_iff (PyStr "C4.1"))). left. by do 2 eexists.
  - intros H. apply (proj1 (intensity_defined_iff PyNone)) in H.
    destruct H as [(c & rest & H) | (c & rest & H)]; discriminate.
Defined.

Lemma request_url_determines_range_witness :
  Sample.jan1 = Sample.jan1 ∧ Sample.jan3 = Sample.jan3.
Proof.
  apply (request_url_determines_range Sample.jan1 Sample.jan3 Sample.jan1 Sample.jan3);
    reflexivity.
Defined.
